(** * OptiOR: the availability engine of the scheduling modal

    A shallow embedding of the conflict-detection logic of
    [web-app/components/ScheduleModal.tsx]: the room check
    [isSlotAvailable], the surgeon filter [getAvailableDoctors], the
    slot grid rendered over [OR_SUITES] x [TIME_SLOTS] and the submit
    handler [onSubmit].

    Conventions of the embedding.
    - A JavaScript [Date] is its time value, an integer number of
      milliseconds ([Z]).  [new Date(c.start)] is the time value the ISO
      string of the case denotes; strings that do not parse (Invalid
      Date) are outside the model.
    - Local time is a fixed-offset zone, taken to be offset 0; every
      comparison in the code is between absolute time values, so another
      fixed offset only shifts all of them.  Daylight-saving changes are
      outside the model.
    - Durations, hours and case ids are integers ([Z]); an optional or
      nullable number is an [option Z], and JavaScript truthiness of a
      number ([x || d], [!x]) is written out: [null], [undefined] and [0]
      are falsy, every other integer (negative ones too) is truthy.
    - The roster object [allDoctors] is a finite map from specialty
      names to surgeon lists; property names inherited from
      [Object.prototype] are outside the model.
    - An effectful handler ([onSubmit]) returns the list of effects it
      performs, in order.

    The second half of the file covers the rest of the modal (the
    effect that runs when it opens, the click on a slot button,
    [handlePredict], [handleDelete], the specialty selector), the click
    handlers and the "Upcoming Today" card of [Dashboard], and the URLs
    of [services/api.ts].  There a number is printed in decimal
    ([pretty]), form fields have the types of [FormValues], and
    [Array.prototype.sort] is the stable ascending sort. *)

From Stdlib Require Import ZArith Lia Sorted.
From stdpp Require Import base strings list gmap pretty.

Local Open Scope Z_scope.

(** ** Dates *)

Module Date.

Definition msPerMinute : Z := 60000.
Definition msPerHour : Z := 3600000.
Definition msPerDay : Z := 86400000.

(** [Day(t)] of ECMAScript: the day number of a time value. *)
Definition Day (t : Z) : Z := t / msPerDay.

(** [d.setHours(hour, min, sec, ms)]:
    [MakeDate(Day(t), MakeTime(hour, min, sec, ms))]. *)
Definition setHours (t hour min sec ms : Z) : Z :=
  Day t * msPerDay + (hour * msPerHour + min * msPerMinute + sec * 1000 + ms).

(** [addMinutes(date, amount)] of date-fns. *)
Definition addMinutes (t amount : Z) : Z := t + amount * msPerMinute.

(** The time value of [hh:mm] on day number [day]; used to write the
    scenarios down. *)
Definition at_ (day hh mm : Z) : Z :=
  day * msPerDay + hh * msPerHour + mm * msPerMinute.

End Date.

(** ** Data model ([components/types.ts]) *)

Record ExtendedProps := {
  or_suite : string;
  service : string;
  booked_time : Z;
  actual_duration : option Z;   (* [None]: the property is missing *)
  patient_name : string;
  is_prediction : bool;
  doctor_name : option string   (* [doctor_name?: string] *)
}.

Record SurgeryCase := {
  id : Z;
  title : string;
  start : Z;                    (* time value of [new Date(c.start)] *)
  end_ : option Z;              (* [None]: [end] is [null] (or empty) *)
  extendedProps : ExtendedProps
}.

(** [useForm<FormValues>]: the fields of [formSchema]. *)
Module FormValues.
Record t := {
  patient_name : string;
  service : string;           (* the empty string: nothing chosen *)
  booked_time : Z;
  doctor_name : option string
}.
End FormValues.

(** [selectedSlot : { or: string, hour: number } | null]. *)
Module Slot.
Record t := { or : string; hour : Z }.
End Slot.

(** The payload [onSubmit] hands to the API; the three dates are the time
    values that [toISOString] serialises. *)
Module Payload.
Record t := {
  date : Z;
  service : string;
  booked_time : Z;
  patient_name : string;
  or_suite : string;
  duration : Z;
  wheels_in : Z;
  wheels_out : Z;
  actual_duration : Z;
  doctor_name : option string
}.
End Payload.

(** The props and the state of one [ScheduleModal] instance that its
    closures read. *)
Record ScheduleModal := {
  selectedDate : Z;
  existingAndAllCases : list SurgeryCase;
  editCase : option SurgeryCase;
  prediction : option Z;
  selectedSlot : option Slot.t;
  allDoctors : gmap string (list string);
  form : FormValues.t
}.

(** ** Constants *)

Definition OR_SUITES : list string := ["OR-1"; "OR-2"; "OR-3"; "OR-4"]%string.

(** [Array.from({ length: 11 }, (_, i) => 8 + i)]. *)
Definition TIME_SLOTS : list Z :=
  List.map (fun i : nat => 8 + Z.of_nat i) (seq 0 11).

(** ** JavaScript truthiness of numbers *)

(** [x || d] for a number [x] that may be missing. *)
Definition or_default (x : option Z) (d : Z) : Z :=
  match x with
  | Some v => if v =? 0 then d else v
  | None => d
  end.

(** The value of a nullable number when it is truthy. *)
Definition truthy (x : option Z) : option Z :=
  match x with
  | Some v => if v =? 0 then None else Some v
  | None => None
  end.

(** ** The conflict callbacks *)

(** [editCase && c.id === editCase.id]. *)
Definition isSelf (editCase : option SurgeryCase) (c : SurgeryCase) : bool :=
  match editCase with
  | Some e => id c =? id e
  | None => false
  end.

(** [const cStart = new Date(c.start)]. *)
Definition cStart (c : SurgeryCase) : Z := start c.

(** [const cEnd = c.end ? new Date(c.end)
                       : addMinutes(cStart, c.extendedProps.actual_duration || 60)]. *)
Definition cEnd (c : SurgeryCase) : Z :=
  match end_ c with
  | Some e => e
  | None =>
      Date.addMinutes (cStart c)
        (or_default (actual_duration (extendedProps c)) 60)
  end.

(** [slotStart < cEnd && slotEnd > cStart]. *)
Definition overlaps (slotStart slotEnd : Z) (c : SurgeryCase) : bool :=
  (slotStart <? cEnd c) && (slotEnd >? cStart c).

(** The callback of [existingAndAllCases.some] in [isSlotAvailable]. *)
Definition roomConflict (editCase : option SurgeryCase) (or : string)
    (slotStart slotEnd : Z) (c : SurgeryCase) : bool :=
  if isSelf editCase c then false
  else if negb (String.eqb (or_suite (extendedProps c)) or) then false
  else overlaps slotStart slotEnd c.

(** [c.extendedProps.doctor_name !== doc]. *)
Definition otherDoctor (c : SurgeryCase) (doc : string) : bool :=
  match doctor_name (extendedProps c) with
  | Some n => negb (String.eqb n doc)
  | None => true
  end.

(** The callback of [existingAndAllCases.some] in [getAvailableDoctors]. *)
Definition doctorConflict (editCase : option SurgeryCase) (doc : string)
    (slotStart slotEnd : Z) (c : SurgeryCase) : bool :=
  if isSelf editCase c then false
  else if otherDoctor c doc then false
  else overlaps slotStart slotEnd c.

(** ** The room check *)

(** The body of [isSlotAvailable] once [slotStart] is known:
    [slotEnd = addMinutes(slotStart, duration)] and the negated [some]. *)
Definition roomFreeAt (cases : list SurgeryCase) (editCase : option SurgeryCase)
    (or : string) (slotStart duration : Z) : bool :=
  let slotEnd := Date.addMinutes slotStart duration in
  negb (existsb (roomConflict editCase or slotStart slotEnd) cases).

(** [slotStart = new Date(selectedDate); slotStart.setHours(hour, 0, 0, 0)]. *)
Definition slotStartOf (m : ScheduleModal) (hour : Z) : Z :=
  Date.setHours (selectedDate m) hour 0 0 0.

Definition isSlotAvailable (m : ScheduleModal) (or : string) (hour duration : Z)
    : bool :=
  roomFreeAt (existingAndAllCases m) (editCase m) or (slotStartOf m hour) duration.

(** ** The surgeon filter *)

(** [const isBusy = existingAndAllCases.some(...)]. *)
Definition isBusy (cases : list SurgeryCase) (editCase : option SurgeryCase)
    (slotStart slotEnd : Z) (doc : string) : bool :=
  existsb (doctorConflict editCase doc slotStart slotEnd) cases.

(** The [doctors.filter] of [getAvailableDoctors] once [slotStart] is
    known. *)
Definition doctorsFreeAt (cases : list SurgeryCase) (editCase : option SurgeryCase)
    (doctors : list string) (slotStart duration : Z) : list string :=
  let slotEnd := Date.addMinutes slotStart duration in
  List.filter (fun doc => negb (isBusy cases editCase slotStart slotEnd doc)) doctors.

(** [allDoctors[service]] behind the guard [!service || !allDoctors[service]]. *)
Definition roster (m : ScheduleModal) : option (list string) :=
  let service := FormValues.service (form m) in
  if String.eqb service "" then None else allDoctors m !! service.

Definition getAvailableDoctors (m : ScheduleModal) : list string :=
  match roster m with
  | None => []
  | Some doctors =>
      match selectedSlot m, truthy (prediction m) with
      | Some slot, Some p =>
          doctorsFreeAt (existingAndAllCases m) (editCase m) doctors
            (slotStartOf m (Slot.hour slot)) p
      | _, _ => doctors       (* "Return all if no slot selected yet" *)
      end
  end.

(** ** The slot grid *)

(** One button of the grid: the room and hour it stands for,
    [isAvail] (the button is disabled when it is false) and
    [isSelected]. *)
Record SlotButton := {
  slot_or : string;
  slot_hour : Z;
  isAvail : bool;
  isSelected : bool
}.

(** [selectedSlot?.or === or && selectedSlot?.hour === hour]. *)
Definition isSelectedSlot (sel : option Slot.t) (or : string) (hour : Z) : bool :=
  match sel with
  | Some s => String.eqb (Slot.or s) or && (Slot.hour s =? hour)
  | None => false
  end.

(** The callback of [TIME_SLOTS.map] for the room [or]. *)
Definition slotButton (m : ScheduleModal) (p : Z) (or : string) (hour : Z)
    : SlotButton :=
  {| slot_or := or;
     slot_hour := hour;
     isAvail := isSlotAvailable m or hour p;
     isSelected := isSelectedSlot (selectedSlot m) or hour |}.

(** [OR_SUITES.map(or => ... TIME_SLOTS.map(hour => ...))]: one row per
    room, one button per hour. *)
Definition slotRows (m : ScheduleModal) (p : Z) : list (string * list SlotButton) :=
  List.map (fun or => (or, List.map (slotButton m p or) TIME_SLOTS)) OR_SUITES.

(** The buttons of the grid in document order. *)
Definition renderedSlots (m : ScheduleModal) (p : Z) : list SlotButton :=
  concat (List.map snd (slotRows m p)).

(** The right-hand panel: [!prediction ? <hint/> : <grid/>]. *)
Definition slotPanel (m : ScheduleModal) : option (list (string * list SlotButton)) :=
  match truthy (prediction m) with
  | None => None
  | Some p => Some (slotRows m p)
  end.

(** ** Submission *)

(** What [onSubmit] does to the outside, in order. *)
Inductive Effect :=
| toast_error (msg : string)
| toast_success (msg : string)
| setIsLoading (b : bool)
| api_updateCase (case_id : Z) (payload : Payload.t)
| api_createCase (payload : Payload.t)
| onClose
| onSuccess.

Definition isApiCall (e : Effect) : bool :=
  match e with
  | api_updateCase _ _ | api_createCase _ => true
  | _ => false
  end.

(** [onSubmit(values)]; [apiOk] tells whether the awaited API call
    resolves (the [try] block runs on) or rejects (the [catch] block
    runs). *)
Definition onSubmit (m : ScheduleModal) (values : FormValues.t) (apiOk : bool)
    : list Effect :=
  match selectedSlot m, truthy (prediction m) with
  | Some slot, Some p =>
      let startTime := Date.setHours (selectedDate m) (Slot.hour slot) 0 0 0 in
      let endTime := Date.addMinutes startTime p in
      let payload :=
        {| Payload.date := selectedDate m;
           Payload.service := FormValues.service values;
           Payload.booked_time := FormValues.booked_time values;
           Payload.patient_name := FormValues.patient_name values;
           Payload.or_suite := Slot.or slot;
           Payload.duration := p;
           Payload.wheels_in := startTime;
           Payload.wheels_out := endTime;
           Payload.actual_duration := p;
           Payload.doctor_name := FormValues.doctor_name values |} in
      [setIsLoading true]
      ++ match editCase m with
         | Some e =>
             api_updateCase (id e) payload
             :: (if apiOk then [toast_success "Schedule Updated"; onClose; onSuccess]
                 else [toast_error "Failed to save schedule"])
         | None =>
             api_createCase payload
             :: (if apiOk then [toast_success "Schedule Created"; onClose; onSuccess]
                 else [toast_error "Failed to save schedule"])
         end
      ++ [setIsLoading false]
  | _, _ => [toast_error "Please select a time slot after getting prediction."]
  end.

(** ** Variations of a modal and of a case list, used to state properties *)

(** The modal [m] rendered over another case list. *)
Definition withCases (m : ScheduleModal) (cases : list SurgeryCase) : ScheduleModal :=
  {| selectedDate := selectedDate m;
     existingAndAllCases := cases;
     editCase := editCase m;
     prediction := prediction m;
     selectedSlot := selectedSlot m;
     allDoctors := allDoctors m;
     form := form m |}.

(** [L] without the entries that carry the id of [X]. *)
Definition withoutCase (X : SurgeryCase) (L : list SurgeryCase) : list SurgeryCase :=
  List.filter (fun c => negb (id c =? id X)) L.

(** The case [c] moved to the room [r]. *)
Definition withRoom (c : SurgeryCase) (r : string) : SurgeryCase :=
  {| id := id c; title := title c; start := start c; end_ := end_ c;
     extendedProps :=
       {| or_suite := r;
          service := service (extendedProps c);
          booked_time := booked_time (extendedProps c);
          actual_duration := actual_duration (extendedProps c);
          patient_name := patient_name (extendedProps c);
          is_prediction := is_prediction (extendedProps c);
          doctor_name := doctor_name (extendedProps c) |} |}.

(** Whether a surgeon is assigned to the case. *)
Definition hasSurgeon (c : SurgeryCase) : bool :=
  match doctor_name (extendedProps c) with Some _ => true | None => false end.

(** The effective end as the specification words it: the stored end when
    present; otherwise start + max(durationMinutes, 1) minutes, and
    start + 60 minutes when the duration is absent or non-positive. *)
Definition spec_effectiveEnd (c : SurgeryCase) : Z :=
  match end_ c with
  | Some e => e
  | None =>
      match actual_duration (extendedProps c) with
      | Some dur =>
          if dur <=? 0 then start c + 60 * 60000
          else start c + Z.max dur 1 * 60000
      | None => start c + 60 * 60000
      end
  end.

(** The effective end in the words of the amended C3: the stored end
    when present; otherwise start + duration minutes for a recorded
    duration other than zero, and start + 60 minutes when the duration
    is absent or zero. *)
Definition amended_effectiveEnd (c : SurgeryCase) : Z :=
  match end_ c with
  | Some e => e
  | None =>
      match actual_duration (extendedProps c) with
      | Some dur =>
          if dur =? 0 then start c + 60 * 60000 else start c + dur * 60000
      | None => start c + 60 * 60000
      end
  end.

(** [formSchema]: the values [form.handleSubmit] lets through to
    [onSubmit] have a patient name of at least 2 characters, a specialty
    of at least 1 and an estimated time of at least 1. *)
Definition formSchema (values : FormValues.t) : bool :=
  (2 <=? Z.of_nat (String.length (FormValues.patient_name values)))
  && (1 <=? Z.of_nat (String.length (FormValues.service values)))
  && (1 <=? FormValues.booked_time values).

(** ** Scenario data *)

Module Scenario.

(** Day number 20000 (2024-10-04). *)
Definition day : Z := 20000.

Definition props (r : string) (dur : option Z) (doc : option string)
    : ExtendedProps :=
  {| or_suite := r; service := "General"; booked_time := 60;
     actual_duration := dur; patient_name := "P"; is_prediction := false;
     doctor_name := doc |}.

Definition mkCase (i : Z) (r : string) (s : Z) (e : option Z)
    (dur : option Z) (doc : option string) : SurgeryCase :=
  {| id := i; title := "case"; start := s; end_ := e;
     extendedProps := props r dur doc |}.

Definition emptyForm : FormValues.t :=
  {| FormValues.patient_name := ""; FormValues.service := "";
     FormValues.booked_time := 0; FormValues.doctor_name := None |}.

Definition formFor (svc : string) : FormValues.t :=
  {| FormValues.patient_name := "P"; FormValues.service := svc;
     FormValues.booked_time := 60; FormValues.doctor_name := None |}.

(** A modal opened on [day] in create mode. *)
Definition modal (cases : list SurgeryCase) (pred : option Z)
    (sel : option Slot.t) (docs : gmap string (list string))
    (f : FormValues.t) : ScheduleModal :=
  {| selectedDate := Date.at_ day 0 0; existingAndAllCases := cases;
     editCase := None; prediction := pred; selectedSlot := sel;
     allDoctors := docs; form := f |}.

Definition withEdit (m : ScheduleModal) (e : SurgeryCase) : ScheduleModal :=
  {| selectedDate := selectedDate m;
     existingAndAllCases := existingAndAllCases m;
     editCase := Some e; prediction := prediction m;
     selectedSlot := selectedSlot m; allDoctors := allDoctors m;
     form := form m |}.

(** OR-1, 09:00-10:00. *)
Definition nine_to_ten : SurgeryCase :=
  mkCase 1 "OR-1" (Date.at_ day 9 0) (Some (Date.at_ day 10 0)) (Some 60) None.

(** Dr. A in OR-2, 10:00-11:00. *)
Definition drA_case : SurgeryCase :=
  mkCase 2 "OR-2" (Date.at_ day 10 0) (Some (Date.at_ day 11 0)) (Some 60)
    (Some "Dr. A").

(** OR-1, 08:30-09:30. *)
Definition half_past : SurgeryCase :=
  mkCase 3 "OR-1" (Date.at_ day 8 30) (Some (Date.at_ day 9 30)) (Some 60) None.

(** OR-1 at 09:00, no stored end, a recorded duration of -30 minutes. *)
Definition negative_duration : SurgeryCase :=
  mkCase 4 "OR-1" (Date.at_ day 9 0) None (Some (-30)) None.

Definition rosterMap : gmap string (list string) :=
  {[ "General" := ["Dr. A"; "Dr. B"] ]}.

End Scenario.

(** ** The rest of the modal: opening, slot buttons, handlers *)

(** Local-time readers of a [Date], in the fixed-offset zone of the
    model. *)
Module LocalTime.

(** [d.getHours()]: [HourFromTime(t)]. *)
Definition getHours (t : Z) : Z := (t mod Date.msPerDay) / Date.msPerHour.

(** [isSameDay(a, b)] of date-fns: both dates fall on one calendar day. *)
Definition isSameDay (a b : Z) : bool := Date.Day a =? Date.Day b.

End LocalTime.

(** The state setters of the component. *)
Definition withSelectedSlot (m : ScheduleModal) (s : option Slot.t) : ScheduleModal :=
  {| selectedDate := selectedDate m;
     existingAndAllCases := existingAndAllCases m;
     editCase := editCase m;
     prediction := prediction m;
     selectedSlot := s;
     allDoctors := allDoctors m;
     form := form m |}.

Definition withPrediction (m : ScheduleModal) (p : option Z) : ScheduleModal :=
  {| selectedDate := selectedDate m;
     existingAndAllCases := existingAndAllCases m;
     editCase := editCase m;
     prediction := p;
     selectedSlot := selectedSlot m;
     allDoctors := allDoctors m;
     form := form m |}.

Definition withForm (m : ScheduleModal) (f : FormValues.t) : ScheduleModal :=
  {| selectedDate := selectedDate m;
     existingAndAllCases := existingAndAllCases m;
     editCase := editCase m;
     prediction := prediction m;
     selectedSlot := selectedSlot m;
     allDoctors := allDoctors m;
     form := f |}.

(** [x || ""] for an optional string. *)
Definition or_empty (x : option string) : string :=
  match x with Some n => n | None => ""%string end.

(** The effect on [isOpen, editCase, form]: in edit mode the form, the
    prediction and the selected slot are taken from the edited case; in
    create mode all three are reset. *)
Definition openEffect (isOpen : bool) (m : ScheduleModal) : ScheduleModal :=
  if isOpen then
    match editCase m with
    | Some e =>
        let f :=
          {| FormValues.patient_name := patient_name (extendedProps e);
             FormValues.service := service (extendedProps e);
             FormValues.booked_time := booked_time (extendedProps e);
             FormValues.doctor_name := Some (or_empty (doctor_name (extendedProps e))) |} in
        let p := truthy (actual_duration (extendedProps e)) in
        let slot :=
          {| Slot.or := or_suite (extendedProps e);
             Slot.hour := LocalTime.getHours (start e) |} in
        withSelectedSlot (withPrediction (withForm m f) p) (Some slot)
    | None =>
        let f :=
          {| FormValues.patient_name := "";
             FormValues.service := "";
             FormValues.booked_time := 0;
             FormValues.doctor_name := Some ""%string |} in
        withSelectedSlot (withPrediction (withForm m f) None) None
    end
  else m.


(** The request of [api.getPrediction]. *)
Module PredictionRequest.
Record t := {
  date : Z;
  service : string;
  booked_time : Z;
  patient_name : string;
  or_suite : string
}.
End PredictionRequest.

(** What [handlePredict], [handleDelete] and the specialty selector do to
    the outside: the effects of [onSubmit] and the calls and setters they
    add. *)
Inductive Action :=
| act (e : Effect)
| api_getPrediction (req : PredictionRequest.t)
| setPrediction (p : Z)
| api_deleteCase (case_id : Z)
| api_getAveragePrediction (service : string) (date : Z)
| toast_info (msg : string).

Definition isApiAction (a : Action) : bool :=
  match a with
  | act e => isApiCall e
  | api_getPrediction _ | api_deleteCase _ | api_getAveragePrediction _ _ => true
  | setPrediction _ | toast_info _ => false
  end.

Definition isLoadingAction (a : Action) : bool :=
  match a with
  | act (setIsLoading _) => true
  | _ => false
  end.

(** [handlePredict] when the estimated-time field holds a number, as it
    does after [form.reset] and after [form.setValue] (a value typed into
    the input is a string: see [handlePredictOn]); [res] is the
    [predicted_duration] of the response when the awaited call resolves,
    [None] when it rejects. *)
Definition handlePredict (m : ScheduleModal) (res : option Z) : list Action :=
  let values := form m in
  if String.eqb (FormValues.service values) "" || (FormValues.booked_time values =? 0)
  then [act (toast_error "Please fill Service and Booked Time")]
  else
    [act (setIsLoading true);
     api_getPrediction
       {| PredictionRequest.date := selectedDate m;
          PredictionRequest.service := FormValues.service values;
          PredictionRequest.booked_time := FormValues.booked_time values;
          PredictionRequest.patient_name := FormValues.patient_name values;
          PredictionRequest.or_suite := "TBD" |}]
    ++ match res with
       | Some d =>
           [setPrediction d;
            act (toast_success ("Predicted Duration: " +:+ pretty d +:+ " mins"))]
       | None => [act (toast_error "Prediction failed")]
       end
    ++ [act (setIsLoading false)].

(** The value of the estimated-time field as [form.getValues()] returns
    it: the number that [form.reset] or [form.setValue] put there, or the
    string the user typed into the input. *)
Inductive FieldValue :=
| field_number (n : Z)
| field_string (s : string).

(** JavaScript truthiness of a field value: every number but 0, every
    string but the empty one. *)
Definition field_truthy (v : FieldValue) : bool :=
  match v with
  | field_number n => negb (n =? 0)
  | field_string s => negb (String.eqb s "")
  end.

(** The request of [api.getPrediction] with the estimated time as the
    form holds it. *)
Module RawPredictionRequest.
Record t := {
  date : Z;
  service : string;
  booked_time : FieldValue;
  patient_name : string;
  or_suite : string
}.
End RawPredictionRequest.

(** The steps of [handlePredict] over a raw field value: the actions
    above, and the prediction call with the raw request. *)
Inductive PredictStep :=
| step (a : Action)
| api_getPrediction_raw (req : RawPredictionRequest.t).

Definition isApiStep (s : PredictStep) : bool :=
  match s with
  | step a => isApiAction a
  | api_getPrediction_raw _ => true
  end.

(** [handlePredict] for any content of the estimated-time field:
    [booked_time] stands for [form.getValues().booked_time]. *)
Definition handlePredictOn (m : ScheduleModal) (booked_time : FieldValue)
    (res : option Z) : list PredictStep :=
  let values := form m in
  if String.eqb (FormValues.service values) "" || negb (field_truthy booked_time)
  then [step (act (toast_error "Please fill Service and Booked Time"))]
  else
    [step (act (setIsLoading true));
     api_getPrediction_raw
       {| RawPredictionRequest.date := selectedDate m;
          RawPredictionRequest.service := FormValues.service values;
          RawPredictionRequest.booked_time := booked_time;
          RawPredictionRequest.patient_name := FormValues.patient_name values;
          RawPredictionRequest.or_suite := "TBD" |}]
    ++ match res with
       | Some d =>
           [step (setPrediction d);
            step (act (toast_success ("Predicted Duration: " +:+ pretty d +:+ " mins")))]
       | None => [step (act (toast_error "Prediction failed"))]
       end
    ++ [step (act (setIsLoading false))].

(** An action of [handlePredict] as a step of [handlePredictOn]. *)
Definition liftAction (a : Action) : PredictStep :=
  match a with
  | api_getPrediction req =>
      api_getPrediction_raw
        {| RawPredictionRequest.date := PredictionRequest.date req;
           RawPredictionRequest.service := PredictionRequest.service req;
           RawPredictionRequest.booked_time :=
             field_number (PredictionRequest.booked_time req);
           RawPredictionRequest.patient_name := PredictionRequest.patient_name req;
           RawPredictionRequest.or_suite := PredictionRequest.or_suite req |}
  | _ => step a
  end.

(** The modal after the state setters of a trace have run. *)
Definition applyAction (m : ScheduleModal) (a : Action) : ScheduleModal :=
  match a with
  | setPrediction p => withPrediction m (Some p)
  | _ => m
  end.

Definition afterActions (m : ScheduleModal) (t : list Action) : ScheduleModal :=
  fold_left applyAction t m.

Definition afterSteps (m : ScheduleModal) (t : list PredictStep) : ScheduleModal :=
  fold_left (fun m s => match s with
                        | step a => applyAction m a
                        | api_getPrediction_raw _ => m
                        end) t m.

(** [handleDelete]; [apiOk] as in [onSubmit]. *)
Definition handleDelete (m : ScheduleModal) (apiOk : bool) : list Action :=
  match editCase m with
  | None => []
  | Some e =>
      [act (setIsLoading true); api_deleteCase (id e)]
      ++ (if apiOk
          then [act (toast_success "Surgery Deleted"); act onClose; act onSuccess]
          else [act (toast_error "Failed to delete")])
      ++ [act (setIsLoading false)]
  end.

(** [onValueChange] of the specialty selector.  [res] is [None] when
    [api.getAveragePrediction] rejects, and otherwise the
    [predicted_duration] of the response ([None] when the response or
    the property is missing).  Returns the form afterwards and the trace. *)
Definition onSpecialtyChange (m : ScheduleModal) (val : string)
    (res : option (option Z)) : FormValues.t * list Action :=
  let f := form m in
  let f1 :=
    {| FormValues.patient_name := FormValues.patient_name f;
       FormValues.service := val;
       FormValues.booked_time := FormValues.booked_time f;
       FormValues.doctor_name := Some ""%string |} in
  let call :=
    [toast_info "Consulting AI Model..."; api_getAveragePrediction val (selectedDate m)] in
  match res with
  | None => (f1, call ++ [act (toast_error "Could not fetch suggested time")])
  | Some r =>
      match truthy r with
      | Some d =>
          ({| FormValues.patient_name := FormValues.patient_name f;
              FormValues.service := val;
              FormValues.booked_time := d;
              FormValues.doctor_name := Some ""%string |},
           call ++ [act (toast_success ("AI Model Suggested: " +:+ pretty d +:+ " mins"))])
      | None => (f1, call)
      end
  end.

(** Shapes of a handler's trace, used to state properties. *)

(** Neither a call to the API nor a change of the loading flag. *)
Definition quiet (a : Action) : bool := negb (isApiAction a || isLoadingAction a).

(** The trace raises the loading flag, makes one call to the API, and
    lowers the flag as its last step. *)
Definition bracketed (t : list Action) : Prop :=
  exists call rest,
    t = act (setIsLoading true) :: call :: rest ++ [act (setIsLoading false)] /\
    isApiAction call = true /\ forallb quiet rest = true.

(** The trace closes the modal or refreshes the dashboard. *)
Definition closes (t : list Action) : bool :=
  existsb (fun a => match a with
                    | act onClose | act onSuccess => true
                    | _ => false
                    end) t.

(** ** The dashboard *)

Module Dashboard.

(** The state of [Dashboard] that the click handlers touch. *)
Record t := {
  cases : list SurgeryCase;
  isModalOpen : bool;
  selectedDate : Z;
  editCase : option SurgeryCase
}.

(** [handleDateClick(arg)]: create mode on the clicked date. *)
Definition handleDateClick (d : t) (date : Z) : t :=
  {| cases := cases d; isModalOpen := true; selectedDate := date; editCase := None |}.

(** [handleEventClick(info)]:
    [cases.find(c => c.id.toString() === info.event.id)]. *)
Definition handleEventClick (d : t) (event_id : string) : t :=
  match List.find (fun c => String.eqb (pretty (id c)) event_id) (cases d) with
  | Some clickedCase =>
      {| cases := cases d; isModalOpen := true;
         selectedDate := start clickedCase; editCase := Some clickedCase |}
  | None => d
  end.

(** Insertion of [x] into a list sorted by start, before the first
    entry that does not start earlier. *)
Fixpoint insertByStart (x : SurgeryCase) (l : list SurgeryCase) : list SurgeryCase :=
  match l with
  | [] => [x]
  | y :: l' => if start x <=? start y then x :: l else y :: insertByStart x l'
  end.

(** [.sort((a, b) => new Date(a.start).getTime() - new Date(b.start).getTime())]:
    the stable ascending sort by start. *)
Fixpoint sortByStart (l : list SurgeryCase) : list SurgeryCase :=
  match l with
  | [] => []
  | x :: l' => insertByStart x (sortByStart l')
  end.

(** [cases.filter(c => isSameDay(new Date(c.start), new Date()))]. *)
Definition today (now : Z) (l : list SurgeryCase) : list SurgeryCase :=
  List.filter (fun c => LocalTime.isSameDay (start c) now) l.

(** The entries of the "Upcoming Today" card, in display order. *)
Definition upcomingToday (d : t) (now : Z) : list SurgeryCase :=
  sortByStart (today now (cases d)).

(** Whether the card shows "No surgeries today." *)
Definition noSurgeriesToday (d : t) (now : Z) : bool :=
  (length (today now (cases d)) =? 0)%nat.

End Dashboard.

(** The props [Dashboard] passes to [<ScheduleModal/>], over the modal's
    own state [m]. *)
Definition modalProps (d : Dashboard.t) (m : ScheduleModal) : ScheduleModal :=
  {| selectedDate := Dashboard.selectedDate d;
     existingAndAllCases := Dashboard.cases d;
     editCase := Dashboard.editCase d;
     prediction := prediction m;
     selectedSlot := selectedSlot m;
     allDoctors := allDoctors m;
     form := form m |}.

(** ** The API client ([services/api.ts]) *)

Module Api.

Definition API_BASE_URL : string := "http://127.0.0.1:5000/api".

Inductive Method := GET | POST | PUT | DELETE.

(** The method and the URL of the request each client function sends. *)
Definition getCases : Method * string := (GET, API_BASE_URL +:+ "/cases").
Definition createCase : Method * string := (POST, API_BASE_URL +:+ "/cases").
Definition updateCase (case_id : Z) : Method * string :=
  (PUT, API_BASE_URL +:+ "/cases/" +:+ pretty case_id).
Definition deleteCase (case_id : Z) : Method * string :=
  (DELETE, API_BASE_URL +:+ "/cases/" +:+ pretty case_id).

End Api.

(** ** More scenario data *)

Module Scenario2.

(** OR-2, 09:30-10:15 (45 minutes), Dr. B, no stored end. *)
Definition off_hour : SurgeryCase :=
  Scenario.mkCase 7 "OR-2" (Date.at_ Scenario.day 9 30) None (Some 45) (Some "Dr. B"%string).

(** OR-3 at 11:00 without a recorded duration. *)
Definition no_duration : SurgeryCase :=
  Scenario.mkCase 8 "OR-3" (Date.at_ Scenario.day 11 0)
    (Some (Date.at_ Scenario.day 12 0)) None None.

(** Form values that pass [formSchema]. *)
Definition patForm (svc : string) : FormValues.t :=
  {| FormValues.patient_name := "Pat"; FormValues.service := svc;
     FormValues.booked_time := 60; FormValues.doctor_name := Some "Dr. B"%string |}.

(** Dr. B in OR-1, 09:00-10:00. *)
Definition drB_morning : SurgeryCase :=
  Scenario.mkCase 9 "OR-1" (Date.at_ Scenario.day 9 0)
    (Some (Date.at_ Scenario.day 10 0)) (Some 60) (Some "Dr. B"%string).

Definition dashboard (l : list SurgeryCase) : Dashboard.t :=
  {| Dashboard.cases := l; Dashboard.isModalOpen := false;
     Dashboard.selectedDate := Date.at_ Scenario.day 0 0;
     Dashboard.editCase := None |}.

(** The state of a modal that has never been opened. *)
Definition blank : ScheduleModal :=
  Scenario.modal [] None None Scenario.rosterMap Scenario.emptyForm.

End Scenario2.

(** * Properties *)

(** ** Helper lemmas on the callbacks *)

Lemma isSelf_false_iff (editCase : option SurgeryCase) (c : SurgeryCase) :
  isSelf editCase c = false <-> (forall e, editCase = Some e -> id c <> id e).
Proof.
  unfold isSelf. destruct editCase as [e0|]; split.
  - intros H e [= <-]. now apply Z.eqb_neq.
  - intros H. apply Z.eqb_neq. now apply H.
  - intros _ e [=].
  - reflexivity.
Qed.

Lemma overlaps_true_iff (s e : Z) (c : SurgeryCase) :
  overlaps s e c = true <-> s < cEnd c /\ e > cStart c.
Proof.
  unfold overlaps. rewrite andb_true_iff, Z.ltb_lt, Z.gtb_gt. reflexivity.
Qed.

Lemma roomConflict_true_iff editCase (r : string) (s e : Z) (c : SurgeryCase) :
  roomConflict editCase r s e c = true <->
  isSelf editCase c = false /\ or_suite (extendedProps c) = r /\
  s < cEnd c /\ e > cStart c.
Proof.
  unfold roomConflict.
  destruct (isSelf editCase c); [intuition discriminate|].
  destruct (String.eqb_spec (or_suite (extendedProps c)) r) as [->|Hne]; simpl.
  - rewrite overlaps_true_iff. intuition.
  - intuition discriminate.
Qed.

Lemma otherDoctor_false_iff (c : SurgeryCase) (doc : string) :
  otherDoctor c doc = false <-> doctor_name (extendedProps c) = Some doc.
Proof.
  unfold otherDoctor. destruct (doctor_name (extendedProps c)) as [n|].
  - destruct (String.eqb_spec n doc) as [->|Hne]; simpl.
    + intuition.
    + split; [discriminate | intros [= ->]; contradiction].
  - intuition discriminate.
Qed.

Lemma doctorConflict_true_iff editCase (doc : string) (s e : Z) (c : SurgeryCase) :
  doctorConflict editCase doc s e c = true <->
  isSelf editCase c = false /\ doctor_name (extendedProps c) = Some doc /\
  s < cEnd c /\ e > cStart c.
Proof.
  unfold doctorConflict.
  destruct (isSelf editCase c); [intuition discriminate|].
  rewrite <- otherDoctor_false_iff.
  destruct (otherDoctor c doc); [intuition discriminate|].
  rewrite overlaps_true_iff. intuition.
Qed.

Lemma roomFreeAt_false_iff cases editCase (r : string) (s d : Z) :
  roomFreeAt cases editCase r s d = false <->
  exists c, In c cases /\ isSelf editCase c = false /\
            or_suite (extendedProps c) = r /\
            s < cEnd c /\ Date.addMinutes s d > cStart c.
Proof.
  unfold roomFreeAt. cbv zeta. rewrite negb_false_iff, existsb_exists.
  split; intros (c & Hin & Hc); exists c; split; trivial;
    now apply roomConflict_true_iff.
Qed.

Lemma roomFreeAt_true_iff cases editCase (r : string) (s d : Z) :
  roomFreeAt cases editCase r s d = true <->
  forall c, In c cases -> isSelf editCase c = false ->
            or_suite (extendedProps c) = r ->
            ~ (s < cEnd c /\ Date.addMinutes s d > cStart c).
Proof.
  rewrite <- not_false_iff_true, roomFreeAt_false_iff. split.
  - intros H c Hin Hs Hr Ho. apply H. exists c. tauto.
  - intros H (c & Hin & Hs & Hr & Ho). now apply (H c).
Qed.

Lemma isBusy_true_iff cases editCase (s e : Z) (doc : string) :
  isBusy cases editCase s e doc = true <->
  exists c, In c cases /\ isSelf editCase c = false /\
            doctor_name (extendedProps c) = Some doc /\
            s < cEnd c /\ e > cStart c.
Proof.
  unfold isBusy. rewrite existsb_exists.
  split; intros (c & Hin & Hc); exists c; split; trivial;
    now apply doctorConflict_true_iff.
Qed.

(** ** C1: the room check *)

Lemma cEnd_amended (c : SurgeryCase) : cEnd c = amended_effectiveEnd c.
Proof.
  unfold cEnd, amended_effectiveEnd, cStart, Date.addMinutes, Date.msPerMinute,
    or_default.
  destruct (end_ c); [reflexivity|].
  destruct (actual_duration (extendedProps c)) as [dur|]; [|reflexivity].
  now destruct (dur =? 0).
Qed.

Lemma amended_spec_effectiveEnd (c : SurgeryCase) :
  (forall dur, end_ c = None -> actual_duration (extendedProps c) = Some dur ->
               0 <= dur) ->
  amended_effectiveEnd c = spec_effectiveEnd c.
Proof.
  unfold amended_effectiveEnd, spec_effectiveEnd. intros H.
  destruct (end_ c); [reflexivity|].
  destruct (actual_duration (extendedProps c)) as [dur|]; [|reflexivity].
  specialize (H dur eq_refl eq_refl).
  destruct (Z.eqb_spec dur 0) as [->|Hne]; [reflexivity|].
  destruct (Z.leb_spec dur 0); [lia|]. f_equal. lia.
Qed.

(** C1, as stated, fails with the effective interval of the
    specification: against a case in OR-1 at 09:00 with no stored end and
    a recorded duration of -30 minutes, whose effective end the
    specification puts at 10:00, the 09:00 slot of OR-1 for 60 minutes
    satisfies the overlap condition of the claim, and the room check
    reports it free. *)
Lemma C1_counterexample :
  let m := Scenario.modal [Scenario.negative_duration] (Some 60) None ∅
             Scenario.emptyForm in
  let s := Date.setHours (selectedDate m) 9 0 0 0 in
  isSlotAvailable m "OR-1" 9 60 = true /\
  exists c, In c (existingAndAllCases m) /\
            (forall e, editCase m = Some e -> id c <> id e) /\
            or_suite (extendedProps c) = "OR-1"%string /\
            s < spec_effectiveEnd c /\ s + 60 * 60000 > start c.
Proof.
  split; [vm_compute; reflexivity|].
  exists Scenario.negative_duration. split; [left; reflexivity|].
  split; [intros e [=]|]. vm_compute. auto.
Qed.

(** C1 (amended).  For every room [r], candidate start [s], duration [d],
    case list [L] and edited case, the room check answers [false] exactly
    when some case of [L] other than the edited one is booked in [r] and
    has [s < end c] and [s + d minutes > start c], where [end c] is the
    stored end of the case when there is one, and otherwise its start
    plus its recorded duration when that is not zero (a negative one
    included), plus 60 minutes when it is absent or zero.  Otherwise the
    check answers [true], in particular on the empty list and when no
    case of [L] is booked in [r].  Whenever no case of [L] without a
    stored end has a negative recorded duration, the same holds with the
    effective end of the specification.  [isSlotAvailable] is that check
    at the start [selectedDate] set to [hour]:00:00.000. *)
Theorem C1_room_check_characterised :
  (forall (L : list SurgeryCase) (editCase : option SurgeryCase)
          (r : string) (s d : Z),
      (roomFreeAt L editCase r s d = false <->
       exists c, In c L /\
                 (forall e, editCase = Some e -> id c <> id e) /\
                 or_suite (extendedProps c) = r /\
                 s < amended_effectiveEnd c /\ s + d * 60000 > start c) /\
      (roomFreeAt L editCase r s d = true <->
       ~ exists c, In c L /\
                   (forall e, editCase = Some e -> id c <> id e) /\
                   or_suite (extendedProps c) = r /\
                   s < amended_effectiveEnd c /\ s + d * 60000 > start c) /\
      roomFreeAt [] editCase r s d = true /\
      ((forall c, In c L -> or_suite (extendedProps c) <> r) ->
       roomFreeAt L editCase r s d = true) /\
      ((forall c dur, In c L -> end_ c = None ->
                      actual_duration (extendedProps c) = Some dur -> 0 <= dur) ->
       (roomFreeAt L editCase r s d = false <->
        exists c, In c L /\
                  (forall e, editCase = Some e -> id c <> id e) /\
                  or_suite (extendedProps c) = r /\
                  s < spec_effectiveEnd c /\ s + d * 60000 > start c))) /\
  (forall (m : ScheduleModal) (r : string) (hour d : Z),
      isSlotAvailable m r hour d =
      roomFreeAt (existingAndAllCases m) (editCase m) r
        (Date.setHours (selectedDate m) hour 0 0 0) d).
Proof.
  split; [|reflexivity].
  intros L editCase r s d.
  assert (Hfalse : roomFreeAt L editCase r s d = false <->
       exists c, In c L /\
                 (forall e, editCase = Some e -> id c <> id e) /\
                 or_suite (extendedProps c) = r /\
                 s < amended_effectiveEnd c /\ s + d * 60000 > start c).
  { rewrite roomFreeAt_false_iff.
    split; intros (c & Hin & Hs & Hr & Ho); exists c;
      [rewrite <- isSelf_false_iff, <- cEnd_amended
      | rewrite isSelf_false_iff, cEnd_amended]; auto. }
  split; [exact Hfalse|]. split; [|split; [|split]].
  - rewrite <- Hfalse. symmetry. apply not_false_iff_true.
  - reflexivity.
  - intros H. apply roomFreeAt_true_iff. intros c Hin _ Hr _. now apply (H c).
  - intros Hpos. rewrite Hfalse.
    split; intros (c & Hin & Hs & Hr & Hlt & Hgt); exists c;
      (split; [exact Hin|]; split; [exact Hs|]; split; [exact Hr|];
       split; [|exact Hgt]);
      [rewrite <- amended_spec_effectiveEnd | rewrite amended_spec_effectiveEnd];
      eauto.
Qed.

Lemma C1_room_check_witness :
  roomFreeAt [Scenario.nine_to_ten] None "OR-2" (Date.at_ Scenario.day 9 0) 60 = true /\
  (roomFreeAt [Scenario.nine_to_ten] None "OR-1" (Date.at_ Scenario.day 9 0) 60 = false <->
   exists c, In c [Scenario.nine_to_ten] /\
             (forall e, @None SurgeryCase = Some e -> id c <> id e) /\
             or_suite (extendedProps c) = "OR-1"%string /\
             Date.at_ Scenario.day 9 0 < spec_effectiveEnd c /\
             Date.at_ Scenario.day 9 0 + 60 * 60000 > start c).
Proof.
  split.
  - apply (proj1 (proj2 (proj2 (proj2
             (proj1 C1_room_check_characterised [Scenario.nine_to_ten] None "OR-2"
                (Date.at_ Scenario.day 9 0) 60))))).
    intros c [<-|[]]. vm_compute. discriminate.
  - apply (proj2 (proj2 (proj2 (proj2
             (proj1 C1_room_check_characterised [Scenario.nine_to_ten] None "OR-1"
                (Date.at_ Scenario.day 9 0) 60))))).
    intros c dur [<-|[]] Hend. vm_compute in Hend. discriminate.
Defined.

(** ** C2: touching intervals *)

(** C2.  A candidate that ends exactly at the start of a case or begins
    exactly at its end does not conflict with it: when every same-room
    case the check looks at touches the candidate in one of these two
    ways, the slot is free.  With a case 09:00-10:00 in OR-1, the 08:00
    and the 10:00 slot for 60 minutes are available and a candidate at
    09:30 for 30 minutes is not. *)
Theorem C2_touching_is_free :
  (forall (L : list SurgeryCase) (editCase : option SurgeryCase)
          (r : string) (s d : Z),
      (forall c, In c L -> isSelf editCase c = false ->
                 or_suite (extendedProps c) = r ->
                 s + d * 60000 = cStart c \/ s = cEnd c) ->
      roomFreeAt L editCase r s d = true) /\
  (let m := Scenario.modal [Scenario.nine_to_ten] (Some 60) None ∅
              Scenario.emptyForm in
   isSlotAvailable m "OR-1" 8 60 = true /\
   isSlotAvailable m "OR-1" 10 60 = true /\
   roomFreeAt (existingAndAllCases m) (editCase m) "OR-1"
     (Date.at_ Scenario.day 9 30) 30 = false).
Proof.
  split.
  - intros L editCase r s d H. apply roomFreeAt_true_iff.
    intros c Hin Hs Hr [Hlt Hgt]. unfold Date.addMinutes, Date.msPerMinute in Hgt.
    destruct (H c Hin Hs Hr); lia.
  - vm_compute. auto.
Qed.

Lemma C2_touching_witness :
  roomFreeAt [Scenario.nine_to_ten] None "OR-1" (Date.at_ Scenario.day 8 0) 60 = true.
Proof.
  apply (proj1 C2_touching_is_free).
  intros c [<-|[]] _ _. left. vm_compute. reflexivity.
Defined.

(** ** C3: the effective interval of a case *)

(** C3, as stated, fails on a negative recorded duration: the code ends
    the case 30 minutes before its start (08:30), the specification's
    wording ends it 60 minutes after (10:00). *)
Lemma C3_counterexample :
  cEnd Scenario.negative_duration = Date.at_ Scenario.day 8 30 /\
  spec_effectiveEnd Scenario.negative_duration = Date.at_ Scenario.day 10 0 /\
  cEnd Scenario.negative_duration <> spec_effectiveEnd Scenario.negative_duration.
Proof. vm_compute. repeat split; discriminate. Qed.

(** C3 (amended).  The effective interval starts at the case's start.  Its
    end is the stored end when there is one; without a stored end it is
    start + duration minutes for a recorded duration other than zero
    (negative ones included) and start + 60 minutes when the duration is
    missing or zero.  On every case whose recorded duration is not
    negative this is the end the specification describes. *)
Theorem C3_effective_interval (c : SurgeryCase) :
  cStart c = start c /\
  (forall e, end_ c = Some e -> cEnd c = e) /\
  (forall dur, end_ c = None -> actual_duration (extendedProps c) = Some dur ->
               dur <> 0 -> cEnd c = start c + dur * 60000) /\
  (end_ c = None ->
   actual_duration (extendedProps c) = None \/
   actual_duration (extendedProps c) = Some 0 ->
   cEnd c = start c + 60 * 60000) /\
  ((forall dur, actual_duration (extendedProps c) = Some dur -> 0 <= dur) ->
   cEnd c = spec_effectiveEnd c).
Proof.
  unfold cEnd, spec_effectiveEnd, cStart, Date.addMinutes, Date.msPerMinute, or_default.
  split; [reflexivity|]. split; [|split; [|split]].
  - intros e ->. reflexivity.
  - intros dur -> -> Hne. apply Z.eqb_neq in Hne. now rewrite Hne.
  - intros -> [-> | ->]; reflexivity.
  - intros Hpos. destruct (end_ c); [reflexivity|].
    destruct (actual_duration (extendedProps c)) as [dur|]; [|reflexivity].
    specialize (Hpos dur eq_refl).
    destruct (Z.eqb_spec dur 0) as [->|Hne]; [reflexivity|].
    destruct (Z.leb_spec dur 0); [lia|]. f_equal. lia.
Qed.

Lemma C3_effective_interval_witness :
  let c := Scenario.mkCase 5 "OR-1" (Date.at_ Scenario.day 9 0) None (Some 45) None in
  cEnd c = start c + 45 * 60000 /\ cEnd c = spec_effectiveEnd c.
Proof.
  intros c. split.
  - apply (proj1 (proj2 (proj2 (C3_effective_interval c))) 45);
      [reflexivity | reflexivity | lia].
  - apply (proj2 (proj2 (proj2 (proj2 (C3_effective_interval c))))).
    intros dur [= <-]. lia.
Defined.

(** ** C4: candidates of zero or negative duration *)

(** C4, as stated, fails: against a case 08:30-09:30 in OR-1 the 09:00
    slot of OR-1 is reported unavailable for a duration of 0 and for a
    duration of -10 minutes. *)
Lemma C4_counterexample :
  let m := Scenario.modal [Scenario.half_past] (Some (-10)) None ∅
             Scenario.emptyForm in
  isSlotAvailable m "OR-1" 9 0 = false /\
  isSlotAvailable m "OR-1" 9 (-10) = false.
Proof. vm_compute. split; reflexivity. Qed.

(** C4 (amended).  A candidate of zero or negative duration gets no
    treatment of its own; it goes through the same comparison as any
    other.  It is free whenever its start does not lie strictly inside
    the effective interval of a same-room case the check looks at, and
    for a duration of zero that is exactly when it is free. *)
Theorem C4_nonpositive_duration
    (L : list SurgeryCase) (editCase : option SurgeryCase)
    (r : string) (s d : Z) :
  d <= 0 ->
  ((forall c, In c L -> isSelf editCase c = false ->
              or_suite (extendedProps c) = r ->
              s <= cStart c \/ cEnd c <= s) ->
   roomFreeAt L editCase r s d = true) /\
  (d = 0 ->
   roomFreeAt L editCase r s d = true ->
   forall c, In c L -> isSelf editCase c = false ->
             or_suite (extendedProps c) = r ->
             s <= cStart c \/ cEnd c <= s).
Proof.
  intros Hd. split.
  - intros H. apply roomFreeAt_true_iff. intros c Hin Hs Hr [Hlt Hgt].
    unfold Date.addMinutes, Date.msPerMinute in Hgt.
    destruct (H c Hin Hs Hr); lia.
  - intros -> Hfree c Hin Hs Hr.
    rewrite roomFreeAt_true_iff in Hfree. specialize (Hfree c Hin Hs Hr).
    unfold Date.addMinutes, Date.msPerMinute in Hfree. lia.
Qed.

Lemma C4_nonpositive_duration_witness :
  roomFreeAt [Scenario.half_past] None "OR-1" (Date.at_ Scenario.day 8 0) (-10) = true.
Proof.
  apply (proj1 (C4_nonpositive_duration [Scenario.half_past] None "OR-1"
                  (Date.at_ Scenario.day 8 0) (-10) ltac:(lia))).
  intros c [<-|[]] _ _. left. vm_compute. discriminate.
Defined.

(** ** C5: self-exclusion while editing *)

Lemma existsb_filter_kept {A} (f g : A -> bool) (l : list A) :
  (forall a, g a = false -> f a = false) ->
  existsb f (List.filter g l) = existsb f l.
Proof.
  intros H. induction l as [|a l IH]; simpl; [reflexivity|].
  destruct (g a) eqn:Hg; simpl.
  - now rewrite IH.
  - now rewrite (H a Hg), IH.
Qed.

Lemma roomConflict_self (X : SurgeryCase) (r : string) (s e : Z) :
  roomConflict (Some X) r s e X = false.
Proof. unfold roomConflict, isSelf. now rewrite Z.eqb_refl. Qed.

Lemma doctorConflict_self (X : SurgeryCase) (doc : string) (s e : Z) :
  doctorConflict (Some X) doc s e X = false.
Proof. unfold doctorConflict, isSelf. now rewrite Z.eqb_refl. Qed.

Lemma roomFreeAt_without_self (L : list SurgeryCase) (X : SurgeryCase)
    (r : string) (s d : Z) :
  roomFreeAt (withoutCase X L) (Some X) r s d = roomFreeAt L (Some X) r s d.
Proof.
  unfold roomFreeAt, withoutCase. cbv zeta. f_equal. apply existsb_filter_kept.
  intros c Hc. apply negb_false_iff in Hc. unfold roomConflict, isSelf.
  now rewrite Hc.
Qed.

Lemma doctorsFreeAt_without_self (L : list SurgeryCase) (X : SurgeryCase)
    (doctors : list string) (s d : Z) :
  doctorsFreeAt (withoutCase X L) (Some X) doctors s d =
  doctorsFreeAt L (Some X) doctors s d.
Proof.
  unfold doctorsFreeAt, isBusy, withoutCase. cbv zeta. apply filter_ext.
  intros doc. f_equal. apply existsb_filter_kept.
  intros c Hc. apply negb_false_iff in Hc. unfold doctorConflict, isSelf.
  now rewrite Hc.
Qed.

(** C5.  While case [X] is edited, both checks ignore [X]'s own booking:
    the callbacks answer "no conflict" on [X] itself, and the room check
    and the surgeon filter give the same answers as on the case list with
    [X]'s entries taken out. *)
Theorem C5_self_exclusion (m : ScheduleModal) (X : SurgeryCase) :
  editCase m = Some X ->
  In X (existingAndAllCases m) ->
  let others := withoutCase X (existingAndAllCases m) in
  (forall r s e, roomConflict (editCase m) r s e X = false) /\
  (forall doc s e, doctorConflict (editCase m) doc s e X = false) /\
  (forall r hour d,
      isSlotAvailable m r hour d = isSlotAvailable (withCases m others) r hour d) /\
  getAvailableDoctors m = getAvailableDoctors (withCases m others).
Proof.
  intros Hedit _ others. rewrite Hedit. repeat split.
  - intros. apply roomConflict_self.
  - intros. apply doctorConflict_self.
  - intros r hour d. unfold isSlotAvailable. simpl. rewrite Hedit.
    symmetry. apply roomFreeAt_without_self.
  - unfold getAvailableDoctors, roster. simpl.
    destruct (String.eqb _ _); [reflexivity|].
    destruct (allDoctors m !! _) as [doctors|]; [|reflexivity].
    destruct (selectedSlot m) as [slot|]; [|reflexivity].
    destruct (truthy (prediction m)) as [p|]; [|reflexivity].
    rewrite Hedit. symmetry. apply doctorsFreeAt_without_self.
Qed.

Lemma C5_self_exclusion_witness :
  let m := Scenario.withEdit
             (Scenario.modal [Scenario.nine_to_ten; Scenario.drA_case] (Some 60)
                (Some {| Slot.or := "OR-2"; Slot.hour := 10 |})
                Scenario.rosterMap (Scenario.formFor "General"))
             Scenario.drA_case in
  isSlotAvailable m "OR-2" 10 60 = true /\
  getAvailableDoctors m = ["Dr. A"; "Dr. B"]%string.
Proof.
  intros m.
  destruct (C5_self_exclusion m Scenario.drA_case eq_refl
              ltac:(right; left; reflexivity)) as (_ & _ & Hroom & Hdoc).
  split.
  - rewrite Hroom. vm_compute. reflexivity.
  - rewrite Hdoc. vm_compute. reflexivity.
Defined.

(** ** C6: the surgeon filter *)

Lemma doctorConflict_unassigned editCase (doc : string) (s e : Z) (c : SurgeryCase) :
  doctor_name (extendedProps c) = None -> doctorConflict editCase doc s e c = false.
Proof.
  intros H. unfold doctorConflict, otherDoctor. rewrite H.
  now destruct (isSelf editCase c).
Qed.

Lemma doctorConflict_withRoom editCase (doc r : string) (s e : Z) (c : SurgeryCase) :
  doctorConflict editCase doc s e (withRoom c r) = doctorConflict editCase doc s e c.
Proof. destruct editCase; reflexivity. Qed.

Lemma doctorsFreeAt_In cases editCase (doctors : list string) (s d : Z) (doc : string) :
  In doc (doctorsFreeAt cases editCase doctors s d) <->
  In doc doctors /\
  ~ exists c, In c cases /\ isSelf editCase c = false /\
              doctor_name (extendedProps c) = Some doc /\
              s < cEnd c /\ Date.addMinutes s d > cStart c.
Proof.
  unfold doctorsFreeAt. cbv zeta. rewrite filter_In, negb_true_iff.
  rewrite <- isBusy_true_iff, not_true_iff_false. reflexivity.
Qed.

(** C6.  The surgeon filter keeps a surgeon of the roster exactly when no
    case other than the edited one is assigned to that surgeon by name
    and overlaps the candidate under the rule of the room check
    ([s < cEnd c] and [s + d minutes > cStart c]).  A case without an
    assigned surgeon conflicts with nobody, and the room of a case plays
    no part.  Dr. A, with a case 10:00-11:00 in OR-2, is filtered out for
    a candidate at 10:30 for 30 minutes, while OR-3 is free for it; the
    same holds on the grid for the 10:00 slot of OR-3. *)
Theorem C6_surgeon_filter :
  (forall (L : list SurgeryCase) (editCase : option SurgeryCase)
          (doctors : list string) (s d : Z) (doc : string),
      In doc (doctorsFreeAt L editCase doctors s d) <->
      In doc doctors /\
      ~ exists c, In c L /\
                  (forall e, editCase = Some e -> id c <> id e) /\
                  doctor_name (extendedProps c) = Some doc /\
                  s < cEnd c /\ s + d * 60000 > cStart c) /\
  (forall (editCase : option SurgeryCase) (r doc : string) (s e : Z)
          (c : SurgeryCase),
      roomConflict editCase r s e c =
        negb (isSelf editCase c)
        && String.eqb (or_suite (extendedProps c)) r && overlaps s e c /\
      doctorConflict editCase doc s e c =
        negb (isSelf editCase c)
        && negb (otherDoctor c doc) && overlaps s e c) /\
  (forall (L : list SurgeryCase) (editCase : option SurgeryCase)
          (doctors : list string) (s d : Z),
      doctorsFreeAt L editCase doctors s d =
      doctorsFreeAt (List.filter hasSurgeon L) editCase doctors s d) /\
  (forall (L : list SurgeryCase) (editCase : option SurgeryCase)
          (doctors : list string) (s d : Z) (f : SurgeryCase -> string),
      doctorsFreeAt (List.map (fun c => withRoom c (f c)) L) editCase doctors s d =
      doctorsFreeAt L editCase doctors s d) /\
  (let L := [Scenario.drA_case] in
   let half_past_ten := Date.at_ Scenario.day 10 30 in
   doctorsFreeAt L None ["Dr. A"; "Dr. B"]%string half_past_ten 30 = ["Dr. B"]%string /\
   roomFreeAt L None "OR-3" half_past_ten 30 = true /\
   let m := Scenario.modal L (Some 30)
              (Some {| Slot.or := "OR-3"; Slot.hour := 10 |})
              Scenario.rosterMap (Scenario.formFor "General") in
   getAvailableDoctors m = ["Dr. B"]%string /\
   isSlotAvailable m "OR-3" 10 30 = true).
Proof.
  split; [|split; [|split; [|split]]].
  - intros L editCase doctors s d doc. rewrite doctorsFreeAt_In.
    apply and_iff_compat_l, not_iff_compat.
    split; intros (c & Hin & Hs & Hrest); exists c;
      [rewrite <- isSelf_false_iff | rewrite isSelf_false_iff]; auto.
  - intros editCase r doc s e c. unfold roomConflict, doctorConflict.
    destruct (isSelf editCase c); simpl; [auto|].
    destruct (String.eqb _ r), (otherDoctor c doc); auto.
  - intros L editCase doctors s d. unfold doctorsFreeAt, isBusy. cbv zeta.
    apply filter_ext. intros doc. f_equal. symmetry.
    apply existsb_filter_kept. intros c Hc. apply doctorConflict_unassigned.
    unfold hasSurgeon in Hc. now destruct (doctor_name (extendedProps c)).
  - intros L editCase doctors s d f. unfold doctorsFreeAt, isBusy. cbv zeta.
    apply filter_ext. intros doc. f_equal.
    induction L as [|c L IH]; simpl; [reflexivity|].
    now rewrite doctorConflict_withRoom, IH.
  - vm_compute. auto.
Qed.

Lemma C6_surgeon_filter_witness :
  In "Dr. B"%string
     (doctorsFreeAt [Scenario.drA_case] None ["Dr. A"; "Dr. B"]%string
        (Date.at_ Scenario.day 10 30) 30).
Proof.
  apply (proj1 C6_surgeon_filter). split.
  - right; left; reflexivity.
  - intros (c & [<-|[]] & _ & Hdoc & _). vm_compute in Hdoc. discriminate.
Defined.

(** ** C7 and C10: the early returns of the surgeon filter *)

Lemma truthy_Some (x : option Z) (p : Z) :
  truthy x = Some p <-> x = Some p /\ p <> 0.
Proof.
  unfold truthy. destruct x as [v|]; [|intuition discriminate].
  destruct (Z.eqb_spec v 0) as [->|Hne].
  - split; [discriminate | intros [[= <-] H]; contradiction].
  - split; [intros [= <-]; auto | intros [[= <-] _]; reflexivity].
Qed.

Lemma truthy_None (x : option Z) :
  truthy x = None <-> x = None \/ x = Some 0.
Proof.
  unfold truthy. destruct x as [v|]; [|intuition].
  destruct (Z.eqb_spec v 0) as [->|Hne].
  - intuition.
  - split; [discriminate | intros [[=] | [= ->]]; contradiction].
Qed.

Lemma roster_Some (m : ScheduleModal) (doctors : list string) :
  FormValues.service (form m) <> ""%string ->
  allDoctors m !! FormValues.service (form m) = Some doctors ->
  roster m = Some doctors.
Proof.
  intros Hs Hd. unfold roster.
  now destruct (String.eqb_spec (FormValues.service (form m)) "").
Qed.

(** C7.  With a specialty chosen and [doctors] its roster: when no slot
    is selected or no predicted duration is known, [getAvailableDoctors]
    returns [doctors] as it is; the overlap filter runs only when a slot
    and a (non-zero) predicted duration both exist, and then over the
    candidate that starts at the slot's hour and lasts the predicted
    duration. *)
Theorem C7_full_roster_without_candidate
    (m : ScheduleModal) (doctors : list string) :
  FormValues.service (form m) <> ""%string ->
  allDoctors m !! FormValues.service (form m) = Some doctors ->
  (selectedSlot m = None \/ prediction m = None ->
   getAvailableDoctors m = doctors) /\
  (getAvailableDoctors m <> doctors ->
   exists slot p, selectedSlot m = Some slot /\ prediction m = Some p) /\
  (forall slot p,
      selectedSlot m = Some slot -> prediction m = Some p -> p <> 0 ->
      getAvailableDoctors m =
      doctorsFreeAt (existingAndAllCases m) (editCase m) doctors
        (Date.setHours (selectedDate m) (Slot.hour slot) 0 0 0) p).
Proof.
  intros Hs Hd. unfold getAvailableDoctors. rewrite (roster_Some m doctors Hs Hd).
  split; [|split].
  - intros [-> | ->]; [reflexivity|]. now destruct (selectedSlot m).
  - intros Hne. destruct (selectedSlot m) as [slot|]; [|contradiction].
    destruct (truthy (prediction m)) as [p|] eqn:Hp; [|contradiction].
    apply truthy_Some in Hp as [Hp _]. eauto.
  - intros slot p -> Hp Hne.
    now rewrite (proj2 (truthy_Some (prediction m) p) (conj Hp Hne)).
Qed.

Lemma C7_full_roster_witness :
  getAvailableDoctors
    (Scenario.modal [Scenario.drA_case] (Some 30) None
       Scenario.rosterMap (Scenario.formFor "General"))
  = ["Dr. A"; "Dr. B"]%string.
Proof.
  apply (proj1 (C7_full_roster_without_candidate
                  (Scenario.modal [Scenario.drA_case] (Some 30) None
                     Scenario.rosterMap (Scenario.formFor "General"))
                  ["Dr. A"; "Dr. B"]%string
                  ltac:(discriminate) ltac:(vm_compute; reflexivity))).
  left. reflexivity.
Defined.

(** C10.  When no specialty is chosen, or the chosen specialty has no
    entry in the fetched roster mapping, [getAvailableDoctors] returns
    the empty list, whatever the slot, the predicted duration and the
    case list are. *)
Theorem C10_no_roster_no_doctors (m : ScheduleModal) :
  FormValues.service (form m) = ""%string \/
  allDoctors m !! FormValues.service (form m) = None ->
  getAvailableDoctors m = [].
Proof.
  intros H. unfold getAvailableDoctors, roster.
  destruct (String.eqb_spec (FormValues.service (form m)) "") as [Hs|Hs];
    [reflexivity|].
  destruct H as [H|H]; [contradiction|]. now rewrite H.
Qed.

Lemma C10_no_roster_witness :
  getAvailableDoctors
    (Scenario.modal [Scenario.drA_case] (Some 30)
       (Some {| Slot.or := "OR-3"; Slot.hour := 10 |})
       Scenario.rosterMap (Scenario.formFor "Urology")) = [] /\
  getAvailableDoctors
    (Scenario.modal [Scenario.drA_case] (Some 30)
       (Some {| Slot.or := "OR-3"; Slot.hour := 10 |})
       Scenario.rosterMap Scenario.emptyForm) = [].
Proof.
  split.
  - apply C10_no_roster_no_doctors. right. vm_compute. reflexivity.
  - apply C10_no_roster_no_doctors. left. reflexivity.
Defined.

(** ** C8: the slot grid *)

Lemma isSlotAvailable_inputs (m m' : ScheduleModal) (r : string) (hour p : Z) :
  selectedDate m' = selectedDate m ->
  existingAndAllCases m' = existingAndAllCases m ->
  editCase m' = editCase m ->
  isSlotAvailable m' r hour p = isSlotAvailable m r hour p.
Proof.
  intros Hd Hc He. unfold isSlotAvailable, slotStartOf. now rewrite Hd, Hc, He.
Qed.

(** The grid is on screen exactly when the predicted duration is truthy,
    and it is then the grid for that duration. *)
Lemma slotPanel_shown (m : ScheduleModal) (rows : list (string * list SlotButton)) :
  slotPanel m = Some rows <->
  exists p, prediction m = Some p /\ p <> 0 /\ rows = slotRows m p.
Proof.
  unfold slotPanel. destruct (truthy (prediction m)) as [p|] eqn:Hp.
  - apply truthy_Some in Hp as [Hp Hne]. split.
    + intros [= <-]. eauto.
    + intros (q & Hq & _ & ->). congruence.
  - split; [discriminate|]. intros (q & Hq & Hne & _).
    apply truthy_None in Hp as [Hp|Hp]; congruence.
Qed.

(** C8.  For every duration [p] and every modal (hence every case list),
    the grid holds one button per (room, hour) pair of the product of the
    4 rooms and the 11 whole hours 8, ..., 18, rooms first and hours
    ascending within a room: 44 buttons, the one at position
    [11 * i + j] standing for room [i] and hour [8 + j], each flagged
    with [isSlotAvailable] of its room and hour.  The sequence of flags
    is a function of the date, the case list, the edited case and the
    duration alone. *)
Theorem C8_slot_grid (m : ScheduleModal) (p : Z) :
  length OR_SUITES = 4%nat /\
  TIME_SLOTS = [8; 9; 10; 11; 12; 13; 14; 15; 16; 17; 18] /\
  List.map (fun b => (slot_or b, slot_hour b)) (renderedSlots m p)
    = list_prod OR_SUITES TIME_SLOTS /\
  NoDup (list_prod OR_SUITES TIME_SLOTS) /\
  length (renderedSlots m p) = (length OR_SUITES * length TIME_SLOTS)%nat /\
  (forall i j : nat, (i < 4)%nat -> (j < 11)%nat ->
     nth_error (renderedSlots m p) (11 * i + j) =
     Some (slotButton m p (nth i OR_SUITES ""%string) (8 + Z.of_nat j))) /\
  Forall (fun b => isAvail b = isSlotAvailable m (slot_or b) (slot_hour b) p)
         (renderedSlots m p) /\
  (forall m' : ScheduleModal,
     selectedDate m' = selectedDate m ->
     existingAndAllCases m' = existingAndAllCases m ->
     editCase m' = editCase m ->
     List.map isAvail (renderedSlots m' p) = List.map isAvail (renderedSlots m p)).
Proof.
  split; [reflexivity|]. split; [reflexivity|]. split; [reflexivity|].
  split; [apply (bool_decide_unpack _); vm_compute; reflexivity|].
  split; [reflexivity|]. split; [|split].
  - intros i j Hi Hj.
    do 4 (destruct i as [|i];
          [do 11 (destruct j as [|j]; [reflexivity|]); lia|]).
    lia.
  - unfold renderedSlots, slotRows. simpl. repeat constructor.
  - intros m' Hd Hc He. unfold renderedSlots, slotRows. simpl.
    now rewrite !(isSlotAvailable_inputs m m' _ _ _ Hd Hc He).
Qed.

Lemma C8_slot_grid_witness :
  let m := Scenario.modal [Scenario.nine_to_ten] (Some 60) None ∅
             Scenario.emptyForm in
  nth_error (renderedSlots m 60) 1 = Some (slotButton m 60 "OR-1" 9) /\
  List.map isAvail
    (renderedSlots
       (Scenario.modal [Scenario.nine_to_ten] None
          (Some {| Slot.or := "OR-4"; Slot.hour := 12 |})
          Scenario.rosterMap (Scenario.formFor "General")) 60)
  = List.map isAvail (renderedSlots m 60).
Proof.
  intros m.
  destruct (C8_slot_grid m 60) as (_ & _ & _ & _ & _ & Hnth & _ & Hdet).
  split.
  - apply (Hnth 0%nat 1%nat); lia.
  - apply Hdet; reflexivity.
Defined.

(** ** C9: what [onSubmit] checks before it calls the API *)

(** C9, as stated, fails.  With a case 09:00-10:00 in OR-1 in the case
    list, the 09:00 slot of OR-1 selected, a predicted duration of 60
    minutes and form values that pass the schema, the slot is not
    available, and [onSubmit] sends the case to the API all the same: as
    a new case in create mode, and as an update of the edited case when
    another case (id 2) is being moved onto that slot. *)
Lemma C9_counterexample :
  let values := Scenario2.patForm "General" in
  let payload :=
    {| Payload.date := Date.at_ Scenario.day 0 0;
       Payload.service := "General";
       Payload.booked_time := 60;
       Payload.patient_name := "Pat";
       Payload.or_suite := "OR-1";
       Payload.duration := 60;
       Payload.wheels_in := Date.at_ Scenario.day 9 0;
       Payload.wheels_out := Date.at_ Scenario.day 10 0;
       Payload.actual_duration := 60;
       Payload.doctor_name := Some "Dr. B"%string |} in
  let m := Scenario.modal [Scenario.nine_to_ten; Scenario.drA_case] (Some 60)
             (Some {| Slot.or := "OR-1"; Slot.hour := 9 |})
             Scenario.rosterMap values in
  let m_edit := Scenario.withEdit m Scenario.drA_case in
  formSchema values = true /\
  isSlotAvailable m "OR-1" 9 60 = false /\
  onSubmit m values true =
    [ setIsLoading true; api_createCase payload;
      toast_success "Schedule Created"; onClose; onSuccess;
      setIsLoading false ] /\
  isSlotAvailable m_edit "OR-1" 9 60 = false /\
  onSubmit m_edit values true =
    [ setIsLoading true; api_updateCase 2 payload;
      toast_success "Schedule Updated"; onClose; onSuccess;
      setIsLoading false ].
Proof. vm_compute. repeat split; reflexivity. Qed.

(** C9 (amended).  Before it submits, [onSubmit] checks only that a slot
    is selected and that a non-zero predicted duration is known.  When
    either is missing the submission is rejected locally: the only effect
    is an error toast and nothing is sent to the API.  Otherwise the case
    is sent, without any look at the case list: as an update of the
    edited case when one is being edited and as a new case otherwise,
    for the room of the selected slot, from the selected date at the
    slot's hour to the predicted duration later, followed by the success
    toast, the closing of the modal and the refresh when the call
    resolves and by the failure toast when it rejects. *)
Theorem C9_submit_checks_selection_only
    (m : ScheduleModal) (values : FormValues.t) (apiOk : bool) :
  (selectedSlot m = None \/ prediction m = None \/ prediction m = Some 0 ->
   onSubmit m values apiOk =
     [toast_error "Please select a time slot after getting prediction."]) /\
  (existsb isApiCall (onSubmit m values apiOk) = false <->
   selectedSlot m = None \/ prediction m = None \/ prediction m = Some 0) /\
  length (List.filter isApiCall (onSubmit m values apiOk)) =
    (if existsb isApiCall (onSubmit m values apiOk) then 1 else 0)%nat /\
  (forall cases : list SurgeryCase,
     onSubmit (withCases m cases) values apiOk = onSubmit m values apiOk) /\
  (forall (slot : Slot.t) (p : Z),
     selectedSlot m = Some slot -> prediction m = Some p -> p <> 0 ->
     let startTime := Date.setHours (selectedDate m) (Slot.hour slot) 0 0 0 in
     let payload :=
       {| Payload.date := selectedDate m;
          Payload.service := FormValues.service values;
          Payload.booked_time := FormValues.booked_time values;
          Payload.patient_name := FormValues.patient_name values;
          Payload.or_suite := Slot.or slot;
          Payload.duration := p;
          Payload.wheels_in := startTime;
          Payload.wheels_out := startTime + p * 60000;
          Payload.actual_duration := p;
          Payload.doctor_name := FormValues.doctor_name values |} in
     onSubmit m values apiOk =
       setIsLoading true
       :: match editCase m with
          | Some e => api_updateCase (id e) payload
          | None => api_createCase payload
          end
       :: (if apiOk
           then [toast_success (match editCase m with
                                | Some _ => "Schedule Updated"
                                | None => "Schedule Created"
                                end); onClose; onSuccess]
           else [toast_error "Failed to save schedule"])
       ++ [setIsLoading false]).
Proof.
  assert (Hrej : selectedSlot m = None \/ prediction m = None \/ prediction m = Some 0 ->
                 onSubmit m values apiOk =
                 [toast_error "Please select a time slot after getting prediction."]).
  { unfold onSubmit. intros [-> | H]; [reflexivity|].
    rewrite (proj2 (truthy_None (prediction m)) H). now destruct (selectedSlot m). }
  split; [exact Hrej|]. split; [|split; [|split]].
  - split.
    + intros Hno. unfold onSubmit in Hno.
      destruct (selectedSlot m) as [slot|]; [|auto].
      destruct (truthy (prediction m)) as [p|] eqn:Hp;
        [|right; now apply truthy_None].
      destruct (editCase m); discriminate.
    + intros H. now rewrite (Hrej H).
  - unfold onSubmit. destruct (selectedSlot m) as [slot|]; [|reflexivity].
    destruct (truthy (prediction m)) as [p|]; [|reflexivity].
    destruct (editCase m), apiOk; reflexivity.
  - reflexivity.
  - intros slot p Hs Hp Hne. cbv zeta. unfold onSubmit.
    rewrite Hs, (proj2 (truthy_Some (prediction m) p) (conj Hp Hne)).
    destruct (editCase m), apiOk; reflexivity.
Qed.

Lemma C9_submit_witness :
  let values := Scenario2.patForm "General" in
  let m := Scenario.withEdit
             (Scenario.modal [Scenario.nine_to_ten; Scenario.drA_case] (Some 60)
                (Some {| Slot.or := "OR-1"; Slot.hour := 9 |})
                Scenario.rosterMap values)
             Scenario.drA_case in
  onSubmit (withPrediction m (Some 0)) values true
    = [toast_error "Please select a time slot after getting prediction."] /\
  List.filter isApiCall (onSubmit m values false)
    = [api_updateCase 2
         {| Payload.date := Date.at_ Scenario.day 0 0;
            Payload.service := "General";
            Payload.booked_time := 60;
            Payload.patient_name := "Pat";
            Payload.or_suite := "OR-1";
            Payload.duration := 60;
            Payload.wheels_in := Date.at_ Scenario.day 9 0;
            Payload.wheels_out := Date.at_ Scenario.day 10 0;
            Payload.actual_duration := 60;
            Payload.doctor_name := Some "Dr. B"%string |}].
Proof.
  intros values m. split.
  - apply (proj1 (C9_submit_checks_selection_only _ _ _)).
    right. right. reflexivity.
  - rewrite (proj2 (proj2 (proj2 (proj2
               (C9_submit_checks_selection_only m values false))))
               {| Slot.or := "OR-1"; Slot.hour := 9 |} 60 eq_refl eq_refl ltac:(lia)).
    vm_compute. reflexivity.
Defined.

(** * Further properties of the code *)

(** ** Algebra of the two checks *)

(** X1.  A slot that is free for a duration is free for every shorter
    one (zero and negative ones included), date, cases and edited case
    being the same. *)
Theorem X1_free_for_shorter_duration
    (m : ScheduleModal) (r : string) (hour d d' : Z) :
  d' <= d ->
  isSlotAvailable m r hour d = true ->
  isSlotAvailable m r hour d' = true.
Proof.
  unfold isSlotAvailable. rewrite !roomFreeAt_true_iff.
  intros Hle H c Hin Hs Hr [Hlt Hgt]. apply (H c Hin Hs Hr).
  unfold Date.addMinutes, Date.msPerMinute in *. lia.
Qed.

Lemma X1_free_for_shorter_witness :
  isSlotAvailable
    (Scenario.modal [Scenario.nine_to_ten] (Some 60) None ∅ Scenario.emptyForm)
    "OR-1" 8 45 = true.
Proof.
  apply (X1_free_for_shorter_duration _ "OR-1" 8 60 45); [lia|].
  vm_compute. reflexivity.
Defined.

(** X2.  With a non-zero predicted duration, every surgeon offered stays
    offered when the predicted duration is replaced by a shorter one. *)
Theorem X2_doctors_for_shorter_duration
    (m : ScheduleModal) (d d' : Z) (doc : string) :
  prediction m = Some d -> d <> 0 -> d' <= d ->
  In doc (getAvailableDoctors m) ->
  In doc (getAvailableDoctors (withPrediction m (Some d'))).
Proof.
  intros Hp Hd Hle. unfold getAvailableDoctors.
  change (roster (withPrediction m (Some d'))) with (roster m).
  destruct (roster m) as [doctors|]; [|trivial]. simpl.
  destruct (selectedSlot m) as [slot|]; [|now destruct (d' =? 0)].
  rewrite (proj2 (truthy_Some (prediction m) d) (conj Hp Hd)).
  rewrite doctorsFreeAt_In. intros [Hin Hfree].
  destruct (d' =? 0); [exact Hin|].
  apply doctorsFreeAt_In. split; [exact Hin|].
  intros (c & Hc & Hs & Hn & Hlt & Hgt). apply Hfree. exists c.
  change (slotStartOf (withPrediction m (Some d')) (Slot.hour slot))
    with (slotStartOf m (Slot.hour slot)) in *.
  repeat split; trivial. unfold Date.addMinutes, Date.msPerMinute in *. lia.
Qed.

Lemma X2_doctors_for_shorter_witness :
  let m := Scenario.modal [Scenario.drA_case] (Some 120)
             (Some {| Slot.or := "OR-3"; Slot.hour := 9 |})
             Scenario.rosterMap (Scenario.formFor "General") in
  In "Dr. B"%string (getAvailableDoctors (withPrediction m (Some 30))).
Proof.
  intros m.
  apply (X2_doctors_for_shorter_duration m 120 30 "Dr. B");
    [reflexivity | lia | lia |].
  vm_compute. left. reflexivity.
Defined.

Lemma roomFreeAt_app (L1 L2 : list SurgeryCase) editCase (r : string) (s d : Z) :
  roomFreeAt (L1 ++ L2) editCase r s d =
  roomFreeAt L1 editCase r s d && roomFreeAt L2 editCase r s d.
Proof. unfold roomFreeAt. cbv zeta. now rewrite existsb_app, negb_orb. Qed.

(** X3.  The room check is a conjunction over the case list: a slot is
    free against two lists put together exactly when it is free against
    each; cases booked in other rooms play no part; and a slot free
    against a list is free against every list drawn from it, so removing
    cases never takes a slot away. *)
Theorem X3_room_check_over_case_lists
    (m : ScheduleModal) (r : string) (hour d : Z) :
  (forall L1 L2,
      isSlotAvailable (withCases m (L1 ++ L2)) r hour d =
      isSlotAvailable (withCases m L1) r hour d
      && isSlotAvailable (withCases m L2) r hour d) /\
  isSlotAvailable m r hour d =
    isSlotAvailable
      (withCases m
         (List.filter (fun c => String.eqb (or_suite (extendedProps c)) r)
            (existingAndAllCases m))) r hour d /\
  (forall L', incl L' (existingAndAllCases m) ->
      isSlotAvailable m r hour d = true ->
      isSlotAvailable (withCases m L') r hour d = true).
Proof.
  split; [|split].
  - intros L1 L2. apply roomFreeAt_app.
  - unfold isSlotAvailable, roomFreeAt. simpl. f_equal. symmetry.
    apply existsb_filter_kept. intros c Hc. unfold roomConflict.
    rewrite Hc. now destruct (isSelf (editCase m) c).
  - intros L' Hincl. unfold isSlotAvailable. simpl.
    rewrite !roomFreeAt_true_iff. intros H c Hin. apply H, Hincl, Hin.
Qed.

Lemma X3_room_check_witness :
  isSlotAvailable
    (withCases
       (Scenario.modal [Scenario.drA_case; Scenario.nine_to_ten] (Some 60) None ∅
          Scenario.emptyForm)
       [Scenario.nine_to_ten]) "OR-1" 8 60 = true.
Proof.
  apply (proj2 (proj2 (X3_room_check_over_case_lists
                         (Scenario.modal [Scenario.drA_case; Scenario.nine_to_ten]
                            (Some 60) None ∅ Scenario.emptyForm) "OR-1" 8 60))).
  - intros c [<-|[]]. right. left. reflexivity.
  - vm_compute. reflexivity.
Defined.

Lemma filter_sublist {A} (f : A -> bool) (l : list A) : sublist (List.filter f l) l.
Proof.
  induction l as [|a l IH]; simpl; [constructor|].
  destruct (f a); now constructor.
Qed.

(** X4.  The surgeons offered are always drawn from the roster of the
    chosen specialty, in roster order and without repeating a name more
    often than the roster does; when the overlap filter runs, none of
    them has a conflicting case. *)
Theorem X4_doctors_drawn_from_roster (m : ScheduleModal) :
  (exists doctors,
      (roster m = Some doctors \/ roster m = None /\ doctors = []) /\
      sublist (getAvailableDoctors m) doctors) /\
  (forall slot p doc,
      selectedSlot m = Some slot -> prediction m = Some p -> p <> 0 ->
      In doc (getAvailableDoctors m) ->
      forall c, In c (existingAndAllCases m) ->
                isSelf (editCase m) c = false ->
                doctor_name (extendedProps c) = Some doc ->
                ~ (slotStartOf m (Slot.hour slot) < cEnd c /\
                   slotStartOf m (Slot.hour slot) + p * 60000 > cStart c)).
Proof.
  split.
  - unfold getAvailableDoctors. destruct (roster m) as [doctors|].
    + exists doctors. split; [auto|].
      destruct (selectedSlot m); [|reflexivity].
      destruct (truthy (prediction m)); [|reflexivity].
      apply filter_sublist.
    + exists []. split; [auto|]. constructor.
  - intros slot p doc Hs Hp Hne. unfold getAvailableDoctors.
    destruct (roster m) as [doctors|]; [|intros []].
    rewrite Hs, (proj2 (truthy_Some (prediction m) p) (conj Hp Hne)).
    rewrite doctorsFreeAt_In. intros [_ Hfree] c Hin Hself Hdoc Hov.
    apply Hfree. exists c. unfold Date.addMinutes, Date.msPerMinute. tauto.
Qed.

Lemma X4_doctors_drawn_witness :
  let m := Scenario.modal [Scenario.drA_case; Scenario2.drB_morning] (Some 30)
             (Some {| Slot.or := "OR-3"; Slot.hour := 10 |})
             Scenario.rosterMap (Scenario.formFor "General") in
  ~ (slotStartOf m 10 < cEnd Scenario2.drB_morning /\
     slotStartOf m 10 + 30 * 60000 > cStart Scenario2.drB_morning).
Proof.
  intros m.
  apply (proj2 (X4_doctors_drawn_from_roster m)
           {| Slot.or := "OR-3"; Slot.hour := 10 |} 30 "Dr. B"%string
           eq_refl eq_refl ltac:(lia) ltac:(vm_compute; left; reflexivity)
           Scenario2.drB_morning ltac:(right; left; reflexivity) eq_refl eq_refl).
Defined.

(** X5.  A slot that starts inside a case of the same room is
    unavailable for every positive duration; in particular a candidate
    equal to the interval of a case of positive length is unavailable. *)
Theorem X5_occupied_slot_unavailable
    (m : ScheduleModal) (c : SurgeryCase) (r : string) (hour d : Z) :
  In c (existingAndAllCases m) ->
  isSelf (editCase m) c = false ->
  or_suite (extendedProps c) = r ->
  cStart c <= slotStartOf m hour < cEnd c ->
  0 < d ->
  isSlotAvailable m r hour d = false.
Proof.
  intros Hin Hs Hr [Hlo Hhi] Hd. apply roomFreeAt_false_iff. exists c.
  repeat split; trivial. unfold Date.addMinutes, Date.msPerMinute. lia.
Qed.

Lemma X5_occupied_slot_witness :
  isSlotAvailable
    (Scenario.modal [Scenario.nine_to_ten] (Some 60) None ∅ Scenario.emptyForm)
    "OR-1" 9 60 = false.
Proof.
  apply (X5_occupied_slot_unavailable _ Scenario.nine_to_ten);
    [left; reflexivity | reflexivity | reflexivity
    | vm_compute; split; [discriminate | reflexivity] | lia].
Defined.

(** ** The grid, the click and the submission together *)

Lemma renderedSlots_grid (m : ScheduleModal) (p : Z) :
  renderedSlots m p =
  List.map (fun rh => slotButton m p (fst rh) (snd rh)) (list_prod OR_SUITES TIME_SLOTS).
Proof. reflexivity. Qed.

Lemma renderedSlots_In (m : ScheduleModal) (p : Z) (b : SlotButton) :
  In b (renderedSlots m p) <->
  b = slotButton m p (slot_or b) (slot_hour b) /\
  In (slot_or b) OR_SUITES /\ In (slot_hour b) TIME_SLOTS.
Proof.
  rewrite renderedSlots_grid, in_map_iff. split.
  - intros ([r h] & <- & Hin). apply in_prod_iff in Hin. simpl. auto.
  - intros (Hb & Hr & Hh). exists (slot_or b, slot_hour b). split; [now symmetry|].
    now apply in_prod_iff.
Qed.

Lemma isSelectedSlot_true_iff (sel : option Slot.t) (r : string) (h : Z) :
  isSelectedSlot sel r h = true <-> sel = Some {| Slot.or := r; Slot.hour := h |}.
Proof.
  unfold isSelectedSlot. destruct sel as [[r0 h0]|]; simpl; [|intuition discriminate].
  rewrite andb_true_iff, String.eqb_eq, Z.eqb_eq.
  split; [intros [-> ->]; reflexivity | intros [= -> ->]; auto].
Qed.

Lemma filter_nil_of_false {A} (f : A -> bool) (l : list A) :
  (forall x, In x l -> f x = false) -> List.filter f l = [].
Proof.
  induction l as [|a l IH]; simpl; intros H; [reflexivity|].
  rewrite (H a (or_introl eq_refl)). apply IH. intros x Hx. apply H. now right.
Qed.

Lemma filter_at_most_one {A B} (key : A -> B) (f : A -> bool) (k : B) (l : list A) :
  NoDup (List.map key l) ->
  (forall x, In x l -> f x = true -> key x = k) ->
  (length (List.filter f l) <= 1)%nat.
Proof.
  induction l as [|a l IH]; simpl; intros Hnd Hk; [lia|].
  apply NoDup_cons in Hnd as [Hnotin Hnd].
  destruct (f a) eqn:Hfa; simpl.
  - rewrite filter_nil_of_false; [simpl; lia|].
    intros x Hx. destruct (f x) eqn:Hfx; [|reflexivity]. exfalso. apply Hnotin.
    apply list_elem_of_In, in_map_iff. exists x. split; [|exact Hx].
    rewrite (Hk x (or_intror Hx) Hfx). symmetry. now apply Hk; [left|].
  - apply IH; [exact Hnd|]. intros x Hx. apply Hk. now right.
Qed.

Lemma TIME_SLOTS_In (h : Z) : In h TIME_SLOTS <-> 8 <= h <= 18.
Proof.
  split.
  - intros H. vm_compute in H. intuition lia.
  - intros H. assert (Hh : h = 8 \/ h = 9 \/ h = 10 \/ h = 11 \/ h = 12 \/ h = 13 \/
                           h = 14 \/ h = 15 \/ h = 16 \/ h = 17 \/ h = 18) by lia.
    vm_compute. intuition.
Qed.

(** X6.  In the grid a button is highlighted exactly when it stands for
    the selected slot, so at most one button is highlighted; and one is
    exactly when a slot is selected whose room is one of the four rooms
    and whose hour lies between 8 and 18. *)
Theorem X6_at_most_one_selected_button (m : ScheduleModal) (p : Z) :
  (forall b, In b (renderedSlots m p) ->
             (isSelected b = true <->
              selectedSlot m = Some {| Slot.or := slot_or b; Slot.hour := slot_hour b |})) /\
  (length (List.filter isSelected (renderedSlots m p)) <= 1)%nat /\
  (List.filter isSelected (renderedSlots m p) <> [] <->
   exists s, selectedSlot m = Some s /\ In (Slot.or s) OR_SUITES /\
             8 <= Slot.hour s <= 18).
Proof.
  assert (Hsel : forall b, In b (renderedSlots m p) ->
             (isSelected b = true <->
              selectedSlot m = Some {| Slot.or := slot_or b; Slot.hour := slot_hour b |})).
  { intros b Hb. apply renderedSlots_In in Hb as [Hb _].
    rewrite Hb at 1. simpl. apply isSelectedSlot_true_iff. }
  split; [exact Hsel|]. split.
  - destruct (selectedSlot m) as [s|] eqn:Hs.
    + apply (filter_at_most_one (fun b => (slot_or b, slot_hour b)) _
               (Slot.or s, Slot.hour s)).
      * apply (bool_decide_unpack _). vm_compute. reflexivity.
      * intros b Hb Hb'. apply (Hsel b Hb) in Hb'. now injection Hb' as ->.
    + rewrite filter_nil_of_false; [simpl; lia|].
      intros b Hb. destruct (isSelected b) eqn:Hb'; [|reflexivity].
      apply (Hsel b Hb) in Hb'. discriminate.
  - split.
    + intros Hne. destruct (List.filter isSelected (renderedSlots m p)) as [|b l] eqn:Hf;
        [contradiction|].
      assert (Hb : In b (List.filter isSelected (renderedSlots m p)))
        by (rewrite Hf; now left).
      apply filter_In in Hb as [Hb Hb'].
      pose proof (proj1 (Hsel b Hb) Hb') as Hs.
      apply renderedSlots_In in Hb as (_ & Hr & Hh).
      eexists. split; [exact Hs|]. simpl. split; [exact Hr|]. now apply TIME_SLOTS_In.
    + intros ([r h] & Hs & Hr & Hh) Hnil. cbn [Slot.or Slot.hour] in Hr, Hh.
      assert (Hb : In (slotButton m p r h) (List.filter isSelected (renderedSlots m p))).
      { apply filter_In. split.
        - apply renderedSlots_In. simpl. split; [reflexivity|].
          split; [exact Hr | now apply TIME_SLOTS_In].
        - simpl. now apply isSelectedSlot_true_iff. }
      rewrite Hnil in Hb. destruct Hb.
Qed.

Lemma X6_at_most_one_selected_witness :
  let m := Scenario.modal [] (Some 60) (Some {| Slot.or := "OR-2"; Slot.hour := 12 |})
             ∅ Scenario.emptyForm in
  isSelected (slotButton m 60 "OR-2" 12) = true.
Proof.
  intros m.
  apply (proj1 (X6_at_most_one_selected_button m 60) (slotButton m 60 "OR-2" 12)).
  - apply renderedSlots_In. vm_compute. intuition.
  - reflexivity.
Defined.



(** ** Opening the modal *)

Lemma setHours_getHours (t : Z) :
  Date.setHours t (LocalTime.getHours t) 0 0 0 = t - t mod Date.msPerHour.
Proof.
  unfold Date.setHours, LocalTime.getHours, Date.Day, Date.msPerDay, Date.msPerHour.
  pose proof (Z.div_mod t 86400000 ltac:(lia)) as Hd.
  pose proof (Z.div_mod (t mod 86400000) 3600000 ltac:(lia)) as Hh.
  assert (Hm : (t mod 86400000) mod 3600000 = t mod 3600000).
  { apply Z.mod_mod_divide. exists 24. reflexivity. }
  lia.
Qed.

(** X8.  A modal opened in create mode starts from nothing: the grid is
    hidden, no surgeon is offered, a prediction request is refused for
    want of a specialty and an estimated time, and a submission is
    refused without any call to the API. *)
Theorem X8_create_mode_starts_empty (m : ScheduleModal) :
  editCase m = None ->
  let m' := openEffect true m in
  slotPanel m' = None /\
  getAvailableDoctors m' = [] /\
  (forall res, handlePredict m' res =
               [act (toast_error "Please fill Service and Booked Time")]) /\
  (forall values apiOk,
      onSubmit m' values apiOk =
      [toast_error "Please select a time slot after getting prediction."]).
Proof.
  intros He m'. subst m'. unfold openEffect. rewrite He. repeat split.
Qed.

Lemma X8_create_mode_witness :
  slotPanel
    (openEffect true
       (Scenario.modal [Scenario.nine_to_ten] (Some 60)
          (Some {| Slot.or := "OR-1"; Slot.hour := 9 |})
          Scenario.rosterMap (Scenario.formFor "General"))) = None.
Proof.
  apply (proj1 (X8_create_mode_starts_empty
                  (Scenario.modal [Scenario.nine_to_ten] (Some 60)
                     (Some {| Slot.or := "OR-1"; Slot.hour := 9 |})
                     Scenario.rosterMap (Scenario.formFor "General")) eq_refl)).
Defined.



(** X10.  A case without a recorded duration (or with a recorded
    duration of zero) cannot be saved from the edit modal as it opens:
    its slot is preselected, but the grid stays hidden and a submission
    is refused without any call to the API. *)
Theorem X10_edit_without_duration_is_refused
    (m : ScheduleModal) (e : SurgeryCase) :
  editCase m = Some e ->
  actual_duration (extendedProps e) = None \/
  actual_duration (extendedProps e) = Some 0 ->
  let m' := openEffect true m in
  selectedSlot m' = Some {| Slot.or := or_suite (extendedProps e);
                            Slot.hour := LocalTime.getHours (start e) |} /\
  slotPanel m' = None /\
  (forall values apiOk,
      onSubmit m' values apiOk =
      [toast_error "Please select a time slot after getting prediction."]).
Proof.
  intros He Hdur m'. subst m'. unfold openEffect. rewrite He.
  pose proof (proj2 (truthy_None (actual_duration (extendedProps e))) Hdur) as Ht.
  split; [reflexivity|]. split.
  - unfold slotPanel. cbn. now rewrite Ht.
  - intros values apiOk. unfold onSubmit. cbn. now rewrite Ht.
Qed.

Lemma X10_edit_without_duration_witness :
  slotPanel
    (openEffect true
       (Scenario.withEdit
          (Scenario.modal [Scenario2.no_duration] (Some 60) None
             Scenario.rosterMap Scenario.emptyForm)
          Scenario2.no_duration)) = None.
Proof.
  apply (proj1 (proj2 (X10_edit_without_duration_is_refused
                         (Scenario.withEdit
                            (Scenario.modal [Scenario2.no_duration] (Some 60) None
                               Scenario.rosterMap Scenario.emptyForm)
                            Scenario2.no_duration)
                         Scenario2.no_duration eq_refl (or_introl eq_refl)))).
Defined.

(** ** The handlers *)

(** X11.  [handlePredict] asks for a prediction exactly when a specialty
    is chosen and the estimated-time field is truthy: a number other
    than zero, or any non-empty string, the typed "0" included.
    Otherwise its only effect is an error toast.  When it asks, it sends
    exactly one request, for the date of the modal and the specialty and
    patient of the form, with the estimated time as the field holds it
    and the room left as "TBD".  Only a successful response changes the
    predicted duration, and the selected slot is left as it is in every
    case.  On a field that holds a number these are the steps of
    [handlePredict]. *)
Theorem X11_predict_guard_and_request
    (m : ScheduleModal) (booked : FieldValue) (res : option Z) :
  let t := handlePredictOn m booked res in
  (FormValues.service (form m) = ""%string \/
   booked = field_number 0 \/ booked = field_string "" ->
   t = [step (act (toast_error "Please fill Service and Booked Time"))] /\
   afterSteps m t = m) /\
  (FormValues.service (form m) <> ""%string ->
   booked <> field_number 0 -> booked <> field_string "" ->
   List.filter isApiStep t =
     [api_getPrediction_raw
        {| RawPredictionRequest.date := selectedDate m;
           RawPredictionRequest.service := FormValues.service (form m);
           RawPredictionRequest.booked_time := booked;
           RawPredictionRequest.patient_name := FormValues.patient_name (form m);
           RawPredictionRequest.or_suite := "TBD" |}] /\
   afterSteps m t = match res with
                    | Some d => withPrediction m (Some d)
                    | None => m
                    end) /\
  selectedSlot (afterSteps m t) = selectedSlot m /\
  handlePredictOn m (field_number (FormValues.booked_time (form m))) res =
    List.map liftAction (handlePredict m res).
Proof.
  assert (Hguard : field_truthy booked = false <->
                   booked = field_number 0 \/ booked = field_string "").
  { destruct booked as [n|str]; simpl; rewrite negb_false_iff.
    - rewrite Z.eqb_eq. split; [intros ->; auto | intros [[= ->]|[=]]; reflexivity].
    - rewrite String.eqb_eq. split; [intros ->; auto | intros [[=]|[= ->]]; reflexivity]. }
  cbv zeta. unfold handlePredictOn.
  destruct (String.eqb_spec (FormValues.service (form m)) "") as [Hs|Hs];
    destruct (field_truthy booked) eqn:Hb; cbn [orb negb].
  - split; [auto|]. split; [intros; contradiction|]. split; [reflexivity|].
    unfold handlePredict. now rewrite Hs.
  - split; [auto|]. split; [intros; contradiction|]. split; [reflexivity|].
    unfold handlePredict. now rewrite Hs.
  - split; [|split; [|split]].
    + intros [H|H]; [contradiction|]. apply Hguard in H. congruence.
    + intros _ _ _. destruct res; split; reflexivity.
    + destruct res; reflexivity.
    + unfold handlePredict.
      destruct (String.eqb_spec (FormValues.service (form m)) ""); [contradiction|].
      cbn [field_truthy orb negb].
      destruct (FormValues.booked_time (form m) =? 0); [reflexivity|].
      destruct res; reflexivity.
  - split; [auto|]. split; [|split; [reflexivity|]].
    + intros _ H1 H2. destruct (proj1 Hguard eq_refl); contradiction.
    + unfold handlePredict.
      destruct (String.eqb_spec (FormValues.service (form m)) ""); [contradiction|].
      cbn [field_truthy orb negb].
      destruct (FormValues.booked_time (form m) =? 0); [reflexivity|].
      destruct res; reflexivity.
Qed.

(** The estimated time typed as "0" passes the guard: the request is
    sent and the prediction of 90 minutes is stored. *)
Lemma X11_predict_witness :
  let m := Scenario.modal [] None None Scenario.rosterMap (Scenario.formFor "General") in
  List.filter isApiStep (handlePredictOn m (field_string "0") (Some 90)) =
    [api_getPrediction_raw
       {| RawPredictionRequest.date := Date.at_ Scenario.day 0 0;
          RawPredictionRequest.service := "General";
          RawPredictionRequest.booked_time := field_string "0";
          RawPredictionRequest.patient_name := "P";
          RawPredictionRequest.or_suite := "TBD" |}] /\
  afterSteps m (handlePredictOn m (field_string "0") (Some 90))
    = withPrediction m (Some 90).
Proof.
  intros m.
  apply (proj1 (proj2 (X11_predict_guard_and_request m (field_string "0") (Some 90))));
    discriminate.
Defined.

(** X12.  Every handler that talks to the API keeps the loading flag
    balanced: whatever the form, the state and the outcome of the call,
    the trace of [onSubmit], [handlePredict] and [handleDelete] either
    touches neither the API nor the loading flag, or raises the flag,
    makes exactly one call, and lowers the flag as its last step. *)
Theorem X12_loading_flag_is_balanced
    (m : ScheduleModal) (values : FormValues.t) (apiOk : bool) (res : option Z) :
  let balanced t := forallb quiet t = true \/ bracketed t in
  balanced (List.map act (onSubmit m values apiOk)) /\
  balanced (handlePredict m res) /\
  balanced (handleDelete m apiOk).
Proof.
  cbv zeta. split; [|split].
  - unfold onSubmit. destruct (selectedSlot m) as [slot|]; [|left; reflexivity].
    destruct (truthy (prediction m)) as [p|]; [|left; reflexivity].
    right. destruct (editCase m) as [e|], apiOk; cbn [List.map app];
      eexists _, _; (split; [|split]);
      try (instantiate (1 := [_; _; _]); reflexivity);
      try (instantiate (1 := [_]); reflexivity); reflexivity.
  - unfold handlePredict.
    destruct (_ || _); [left; reflexivity|]. right.
    destruct res; cbn [app]; eexists _, _; (split; [|split]);
      try (instantiate (1 := [_; _]); reflexivity);
      try (instantiate (1 := [_]); reflexivity); reflexivity.
  - unfold handleDelete. destruct (editCase m) as [e|]; [|left; reflexivity].
    right. destruct apiOk; cbn [app]; eexists _, _; (split; [|split]);
      try (instantiate (1 := [_; _; _]); reflexivity);
      try (instantiate (1 := [_]); reflexivity); reflexivity.
Qed.

(** X13.  The modal is closed and the dashboard refreshed only after a
    call that succeeded: [onSubmit] and [handleDelete] close exactly when
    they made their call and it resolved, and the call of [handleDelete]
    is the deletion of the edited case; [handlePredict] never closes. *)
Theorem X13_closes_only_after_success
    (m : ScheduleModal) (values : FormValues.t) (apiOk : bool) (res : option Z) :
  closes (List.map act (onSubmit m values apiOk))
    = apiOk && existsb isApiCall (onSubmit m values apiOk) /\
  closes (handleDelete m apiOk)
    = apiOk && existsb isApiAction (handleDelete m apiOk) /\
  List.filter isApiAction (handleDelete m apiOk)
    = match editCase m with
      | Some e => [api_deleteCase (id e)]
      | None => []
      end /\
  closes (handlePredict m res) = false.
Proof.
  repeat split.
  - unfold onSubmit. destruct (selectedSlot m); [|now destruct apiOk].
    destruct (truthy (prediction m)); [|now destruct apiOk].
    destruct (editCase m), apiOk; reflexivity.
  - unfold handleDelete. destruct (editCase m), apiOk; reflexivity.
  - unfold handleDelete. destruct (editCase m), apiOk; reflexivity.
  - unfold handlePredict. destruct (_ || _); [reflexivity|]. now destruct res.
Qed.

(** ** The dashboard *)

(** X14.  A click on the calendar event of a case of the list (the event
    id is the id of the case in decimal) opens the modal in edit mode on
    a case of the list with that id, dated at the start of that case;
    when ids are not shared it is that very case.  A click on an event id
    that belongs to no case changes nothing, and the case list is never
    touched. *)
Theorem X14_event_click_opens_the_clicked_case
    (d : Dashboard.t) (c : SurgeryCase) :
  In c (Dashboard.cases d) ->
  (exists c',
      In c' (Dashboard.cases d) /\ id c' = id c /\
      Dashboard.handleEventClick d (pretty (id c)) =
        {| Dashboard.cases := Dashboard.cases d;
           Dashboard.isModalOpen := true;
           Dashboard.selectedDate := start c';
           Dashboard.editCase := Some c' |} /\
      ((forall x, In x (Dashboard.cases d) -> id x = id c -> x = c) -> c' = c)) /\
  (forall event_id,
      (forall x, In x (Dashboard.cases d) -> pretty (id x) <> event_id) ->
      Dashboard.handleEventClick d event_id = d) /\
  (forall event_id,
      Dashboard.cases (Dashboard.handleEventClick d event_id) = Dashboard.cases d).
Proof.
  intros Hin. split; [|split].
  - unfold Dashboard.handleEventClick.
    destruct (List.find _ (Dashboard.cases d)) as [c'|] eqn:Hf.
    + apply find_some in Hf as [Hin' Heq]. apply String.eqb_eq in Heq.
      apply (inj pretty) in Heq. exists c'. repeat split; auto.
    + apply (find_none _ _ Hf) in Hin. now rewrite String.eqb_refl in Hin.
  - intros event_id Hno. unfold Dashboard.handleEventClick.
    destruct (List.find _ (Dashboard.cases d)) as [c'|] eqn:Hf; [|reflexivity].
    apply find_some in Hf as [Hin' Heq]. apply String.eqb_eq in Heq.
    now apply Hno in Hin'.
  - intros event_id. unfold Dashboard.handleEventClick.
    now destruct (List.find _ (Dashboard.cases d)).
Qed.

Lemma X14_event_click_witness :
  Dashboard.handleEventClick
    (Scenario2.dashboard [Scenario.nine_to_ten; Scenario2.off_hour]) "12"
  = Scenario2.dashboard [Scenario.nine_to_ten; Scenario2.off_hour].
Proof.
  apply (proj1 (proj2 (X14_event_click_opens_the_clicked_case
                         (Scenario2.dashboard [Scenario.nine_to_ten; Scenario2.off_hour])
                         Scenario.nine_to_ten ltac:(left; reflexivity)))).
  intros x [<-|[<-|[]]]; vm_compute; discriminate.
Defined.

Lemma insertByStart_In (x c : SurgeryCase) (l : list SurgeryCase) :
  In c (Dashboard.insertByStart x l) <-> c = x \/ In c l.
Proof.
  induction l as [|y l IH]; simpl; [intuition|].
  destruct (start x <=? start y); simpl; rewrite ?IH; intuition.
Qed.

Lemma sortByStart_In (c : SurgeryCase) (l : list SurgeryCase) :
  In c (Dashboard.sortByStart l) <-> In c l.
Proof.
  induction l as [|x l IH]; simpl; [reflexivity|].
  rewrite insertByStart_In, IH. intuition.
Qed.

Lemma insertByStart_length (x : SurgeryCase) (l : list SurgeryCase) :
  length (Dashboard.insertByStart x l) = S (length l).
Proof.
  induction l as [|y l IH]; simpl; [reflexivity|].
  destruct (start x <=? start y); simpl; now rewrite ?IH.
Qed.

Lemma sortByStart_length (l : list SurgeryCase) :
  length (Dashboard.sortByStart l) = length l.
Proof.
  induction l as [|x l IH]; simpl; [reflexivity|].
  now rewrite insertByStart_length, IH.
Qed.

Lemma insertByStart_sorted (x : SurgeryCase) (l : list SurgeryCase) :
  StronglySorted (fun a b => start a <= start b) l ->
  StronglySorted (fun a b => start a <= start b) (Dashboard.insertByStart x l).
Proof.
  induction 1 as [|y l Hl IH Hy]; simpl.
  - repeat constructor.
  - destruct (Z.leb_spec (start x) (start y)) as [Hle|Hgt].
    + constructor; [now constructor|]. constructor; [exact Hle|].
      rewrite Forall_forall in *. intros z Hz. specialize (Hy z Hz). lia.
    + constructor; [exact IH|]. rewrite Forall_forall in *.
      intros z Hz. apply list_elem_of_In, insertByStart_In in Hz as [->|Hz];
        [lia | now apply Hy, list_elem_of_In].
Qed.

Lemma insertByStart_same_start (k : Z) (x : SurgeryCase) (l : list SurgeryCase) :
  List.filter (fun c => start c =? k) (Dashboard.insertByStart x l) =
  List.filter (fun c => start c =? k) (x :: l).
Proof.
  induction l as [|y l IH]; [reflexivity|].
  cbn [Dashboard.insertByStart].
  destruct (Z.leb_spec (start x) (start y)) as [Hle|Hgt]; [reflexivity|].
  cbn [List.filter] in *. rewrite IH.
  destruct (Z.eqb_spec (start x) k) as [Hx|Hx], (Z.eqb_spec (start y) k) as [Hy|Hy];
    try reflexivity. lia.
Qed.

(** X15.  The "Upcoming Today" card lists exactly the cases of the
    dashboard that start on the calendar day of the current time, each
    as often as it occurs in the case list, in ascending order of start;
    it shows "No surgeries today." exactly when that list is empty. *)
Theorem X15_upcoming_today (d : Dashboard.t) (now : Z) :
  StronglySorted (fun a b => start a <= start b) (Dashboard.upcomingToday d now) /\
  (forall c, In c (Dashboard.upcomingToday d now) <->
             In c (Dashboard.cases d) /\ Date.Day (start c) = Date.Day now) /\
  length (Dashboard.upcomingToday d now) =
    length (List.filter (fun c => Date.Day (start c) =? Date.Day now)
              (Dashboard.cases d)) /\
  (Dashboard.noSurgeriesToday d now = true <-> Dashboard.upcomingToday d now = []).
Proof.
  unfold Dashboard.upcomingToday, Dashboard.noSurgeriesToday, Dashboard.today.
  split; [|split; [|split]].
  - induction (List.filter _ (Dashboard.cases d)) as [|x l IH]; simpl;
      [constructor | now apply insertByStart_sorted].
  - intros c. rewrite sortByStart_In, filter_In.
    unfold LocalTime.isSameDay. now rewrite Z.eqb_eq.
  - apply sortByStart_length.
  - rewrite Nat.eqb_eq, <- (sortByStart_length (List.filter _ _)).
    destruct (Dashboard.sortByStart _); simpl; split; congruence.
Qed.

(** X16.  The sort of the "Upcoming Today" card is stable: cases that
    start at the same time appear in the order they have in the case
    list. *)
Theorem X16_upcoming_today_is_stable (d : Dashboard.t) (now k : Z) :
  List.filter (fun c => start c =? k) (Dashboard.upcomingToday d now) =
  List.filter (fun c => start c =? k) (Dashboard.today now (Dashboard.cases d)).
Proof.
  unfold Dashboard.upcomingToday.
  induction (Dashboard.today now (Dashboard.cases d)) as [|x l IH]; [reflexivity|].
  cbn [Dashboard.sortByStart]. rewrite insertByStart_same_start.
  cbn [List.filter]. now rewrite IH.
Qed.

(** ** The specialty selector and the API client *)

(** X17.  A change of specialty always clears the surgeon of the form
    and keeps the patient, whether the suggestion arrives, is empty, or
    fails; the estimated time is overwritten only by a suggestion other
    than zero; exactly one request for the average is sent, for the new
    specialty; and the surgeons offered afterwards all belong to the
    roster of the new specialty. *)
Theorem X17_specialty_change_resets_surgeon
    (m : ScheduleModal) (val : string) (res : option (option Z)) :
  let f' := fst (onSpecialtyChange m val res) in
  let t := snd (onSpecialtyChange m val res) in
  FormValues.service f' = val /\
  FormValues.doctor_name f' = Some ""%string /\
  FormValues.patient_name f' = FormValues.patient_name (form m) /\
  FormValues.booked_time f' =
    match res with
    | Some r => or_default r (FormValues.booked_time (form m))
    | None => FormValues.booked_time (form m)
    end /\
  List.filter isApiAction t = [api_getAveragePrediction val (selectedDate m)] /\
  (forall doc, In doc (getAvailableDoctors (withForm m f')) ->
               exists doctors, allDoctors m !! val = Some doctors /\ In doc doctors).
Proof.
  cbv zeta.
  assert (Hf : FormValues.service (fst (onSpecialtyChange m val res)) = val).
  { unfold onSpecialtyChange. destruct res as [[r|]|]; simpl; [|reflexivity..].
    now destruct (r =? 0). }
  split; [exact Hf|]. repeat split.
  - unfold onSpecialtyChange. destruct res as [[r|]|]; simpl; [|reflexivity..].
    now destruct (r =? 0).
  - unfold onSpecialtyChange. destruct res as [[r|]|]; simpl; [|reflexivity..].
    now destruct (r =? 0).
  - unfold onSpecialtyChange. destruct res as [[r|]|]; simpl; [|reflexivity..].
    now destruct (r =? 0).
  - unfold onSpecialtyChange. destruct res as [[r|]|]; simpl; [|reflexivity..].
    now destruct (r =? 0).
  - intros doc. unfold getAvailableDoctors, roster.
    cbn [form withForm allDoctors selectedSlot prediction existingAndAllCases editCase].
    rewrite Hf. destruct (String.eqb val ""); [intros []|].
    destruct (allDoctors m !! val) as [doctors|]; [|intros []].
    intros Hin. exists doctors. split; [reflexivity|].
    destruct (selectedSlot m); [|exact Hin].
    destruct (truthy (prediction m)); [|exact Hin].
    now apply doctorsFreeAt_In in Hin.
Qed.

Lemma X17_specialty_change_witness :
  let m := Scenario.modal [Scenario.drA_case] (Some 30) None
             Scenario.rosterMap (Scenario.formFor "Urology") in
  exists doctors,
    allDoctors m !! "General"%string = Some doctors /\ In "Dr. A"%string doctors.
Proof.
  intros m.
  apply (proj2 (proj2 (proj2 (proj2 (proj2
           (X17_specialty_change_resets_surgeon m "General" None)))))).
  vm_compute. left. reflexivity.
Defined.

(** X18.  [updateCase] and [deleteCase] address the same resource for
    the same case id, different resources for different ids, and never
    the collection that [getCases] and [createCase] address. *)
Theorem X18_case_resource_urls (i j : Z) :
  snd (Api.updateCase i) = snd (Api.deleteCase i) /\
  (snd (Api.updateCase i) = snd (Api.updateCase j) <-> i = j) /\
  snd (Api.updateCase i) <> snd Api.getCases /\
  snd Api.createCase = snd Api.getCases /\
  fst (Api.updateCase i) <> fst (Api.deleteCase i) /\
  fst Api.createCase <> fst Api.getCases.
Proof.
  unfold Api.updateCase, Api.deleteCase, Api.getCases, Api.createCase. cbn [fst snd].
  split; [reflexivity|]. split; [|split; [|split; [reflexivity|split; discriminate]]].
  - split; [|now intros ->].
    intros H. apply (inj (String.app _)), (inj (String.app _)) in H.
    now apply (inj pretty) in H.
  - intros H. apply (inj (String.app _)) in H. discriminate H.
Qed.

(** ** The edited case and the window of the grid *)

(** X19.  When a case that starts on the hour and ends its recorded
    duration after its start is opened for editing from the dashboard,
    and no other case of its room overlaps it, the slot the modal
    preselects is the case's own interval and the room check reports it
    available. *)
Theorem X19_own_slot_is_available_when_editing
    (m : ScheduleModal) (e : SurgeryCase) (dur : Z) :
  editCase m = Some e ->
  selectedDate m = start e ->
  actual_duration (extendedProps e) = Some dur -> dur <> 0 ->
  start e mod 3600000 = 0 ->
  cEnd e = start e + dur * 60000 ->
  (forall c, In c (existingAndAllCases m) -> id c <> id e ->
             or_suite (extendedProps c) = or_suite (extendedProps e) ->
             ~ (cStart e < cEnd c /\ cEnd e > cStart c)) ->
  let m' := openEffect true m in
  exists slot,
    selectedSlot m' = Some slot /\
    prediction m' = Some dur /\
    Slot.or slot = or_suite (extendedProps e) /\
    slotStartOf m' (Slot.hour slot) = start e /\
    isSlotAvailable m' (Slot.or slot) (Slot.hour slot) dur = true.
Proof.
  intros He Hd Hdur Hne Hhour Hend Hinv m'. subst m'.
  unfold openEffect. rewrite He. eexists. split; [reflexivity|].
  assert (Hs : Date.setHours (start e) (LocalTime.getHours (start e)) 0 0 0 = start e).
  { rewrite setHours_getHours. unfold Date.msPerHour. lia. }
  split; [|split; [reflexivity|split]].
  - cbn [prediction withSelectedSlot withPrediction]. rewrite Hdur.
    now apply truthy_Some.
  - unfold slotStartOf. cbn [selectedDate withSelectedSlot withPrediction withForm Slot.hour].
    now rewrite Hd.
  - unfold isSlotAvailable, slotStartOf.
    cbn [selectedDate existingAndAllCases editCase withSelectedSlot withPrediction
         withForm Slot.hour Slot.or].
    rewrite He, Hd, Hs. apply roomFreeAt_true_iff.
    intros c Hin Hself Hr. rewrite isSelf_false_iff in Hself.
    specialize (Hinv c Hin (Hself e eq_refl) Hr).
    unfold Date.addMinutes, Date.msPerMinute, cStart in *. lia.
Qed.

Lemma X19_own_slot_witness :
  let e := Scenario.drA_case in
  let d := Dashboard.handleEventClick
             (Scenario2.dashboard [Scenario.nine_to_ten; e]) "2" in
  exists slot,
    selectedSlot (openEffect true (modalProps d Scenario2.blank)) = Some slot /\
    prediction (openEffect true (modalProps d Scenario2.blank)) = Some 60 /\
    Slot.or slot = "OR-2"%string /\
    slotStartOf (openEffect true (modalProps d Scenario2.blank)) (Slot.hour slot)
      = start e /\
    isSlotAvailable (openEffect true (modalProps d Scenario2.blank))
      (Slot.or slot) (Slot.hour slot) 60 = true.
Proof.
  intros e d.
  apply (X19_own_slot_is_available_when_editing (modalProps d Scenario2.blank) e 60);
    try (vm_compute; reflexivity); try lia.
  intros c [<-|[<-|[]]] Hid Hr; vm_compute in Hid, Hr; congruence.
Defined.

Lemma slotStartOf_window (m : ScheduleModal) (h : Z) :
  In h TIME_SLOTS ->
  slotStartOf m 8 <= slotStartOf m h <= slotStartOf m 18.
Proof.
  intros Hh. apply TIME_SLOTS_In in Hh.
  unfold slotStartOf, Date.setHours, Date.msPerHour. lia.
Qed.

(** X20.  Only the cases that reach into the window of the grid matter
    to it: for a predicted duration [p], the window runs from 08:00 of
    the selected day to the end of the 18:00 slot, and dropping every
    case that ends at or before its beginning or starts at or after its
    end changes no availability flag of the grid. *)
Theorem X20_grid_depends_on_the_window_only (m : ScheduleModal) (p : Z) :
  let lo := Date.setHours (selectedDate m) 8 0 0 0 in
  let hi := Date.setHours (selectedDate m) 18 0 0 0 + p * 60000 in
  let inWindow c := (lo <? cEnd c) && (hi >? cStart c) in
  List.map isAvail (renderedSlots m p) =
  List.map isAvail
    (renderedSlots (withCases m (List.filter inWindow (existingAndAllCases m))) p).
Proof.
  cbv zeta. rewrite !renderedSlots_grid, !map_map. apply map_ext_in.
  intros [r h] Hin. apply in_prod_iff in Hin as [_ Hh].
  cbn [fst snd isAvail slotButton].
  pose proof (slotStartOf_window m h Hh) as Hw.
  unfold isSlotAvailable, roomFreeAt. cbn [existingAndAllCases editCase withCases].
  change (slotStartOf (withCases m _) h) with (slotStartOf m h).
  f_equal. symmetry. apply existsb_filter_kept.
  intros c Hc. destruct (roomConflict _ _ _ _ c) eqn:Hconf; [|reflexivity].
  apply roomConflict_true_iff in Hconf as (_ & _ & Hlt & Hgt).
  apply andb_false_iff in Hc. unfold slotStartOf in Hw.
  unfold Date.addMinutes, Date.msPerMinute in Hgt.
  destruct Hc as [Hc|Hc]; [apply Z.ltb_ge in Hc | rewrite Z.gtb_ltb in Hc;
    apply Z.ltb_ge in Hc]; unfold slotStartOf in *; lia.
Qed.
